(** * Article evaluator: a shallow embedding of [app/evaluator.py]

    The scoring core of the news-curation service is embedded function by
    function.  Python [int] is [Z]; Python [float] is read as an exact
    rational ([Q]) so that every definition evaluates; the one place that
    needs a square root ([np.std]) is also studied over the reals.  The
    three NLP handles created in [ArticleEvaluator.__init__] are external:
    they are the variables of the section that embeds the methods, and each
    call to one of them is recorded in a call log threaded through a small
    exception-and-log monad. *)

From Stdlib Require Import ZArith QArith Qabs Qminmax List String Ascii Bool Lia.
From Stdlib Require Lqa.
From Stdlib Require Reals Lra.
Import ListNotations.

Open Scope Q_scope.

(** ** Python built-ins used by the evaluator *)

Module Py.

(** [x < y] on floats. *)
Definition Qltb (x y : Q) : bool := negb (Qle_bool y x).

(** [min(a, b)]: the first argument unless the second is strictly smaller. *)
Definition min (a b : Q) : Q := if Qltb b a then b else a.

(** [max(a, b)]: the first argument unless the second is strictly larger. *)
Definition max (a b : Q) : Q := if Qltb a b then b else a.

(** [max(1, n)] on integers. *)
Definition max_int (a b : Z) : Z := if (a <? b)%Z then b else a.

(** [abs(x)]. *)
Definition abs (x : Q) : Q := if Qltb x 0 then - x else x.

(** Exceptions the embedded code can raise.  [ProviderError] stands for
    whatever an NLP handle raises, with its message. *)
Inductive Exception : Type :=
| ProviderError (cause : string)
| IndexError
| ValueError.

Inductive Result (A : Type) : Type :=
| Ok (a : A)
| Raise (e : Exception).
Arguments Ok {A} a.
Arguments Raise {A} e.

(** [l[i]] for a non-negative literal index. *)
Definition index {A} (l : list A) (i : nat) : Result A :=
  match nth_error l i with
  | Some x => Ok x
  | None => Raise IndexError
  end.

(** The loop of [max(iterable)]: keep the running best, replace it only
    by a strictly larger item. *)
Fixpoint max_from (best : Q) (l : list Q) : Q :=
  match l with
  | [] => best
  | x :: rest => max_from (if Qltb best x then x else best) rest
  end.

(** [max(l)]: [ValueError] on the empty sequence. *)
Definition max_list (l : list Q) : Result Q :=
  match l with
  | [] => Raise ValueError
  | x :: rest => Ok (max_from x rest)
  end.

(** [s[:n]] on a string. *)
Definition slice_to (n : nat) (s : string) : string := substring 0 n s.

End Py.

Import Py.

(** ** Data model ([app/models.py]) *)

Record Article : Type := mkArticle {
  title : string;
  content : string;
  source : string;
  published_date : Z;
  author : option string;
  url : string;
  categories : list string
}.

(** [ContentMetrics], with the carrier of its [float] fields left open so
    that the same record serves the rational and the real reading. *)
Record ContentMetrics (F : Type) : Type := mkContentMetrics {
  named_entities_count : Z;
  fact_density_score : F;
  novelty_score : F;
  analytical_depth_score : F;
  readability_score : F;
  topic_relevance_score : F;
  sentiment_score : F
}.
Arguments mkContentMetrics {F}.
Arguments named_entities_count {F}.
Arguments fact_density_score {F}.
Arguments novelty_score {F}.
Arguments analytical_depth_score {F}.
Arguments readability_score {F}.
Arguments topic_relevance_score {F}.
Arguments sentiment_score {F}.

Record ArticleEvaluation : Type := mkArticleEvaluation {
  article_id : string;
  overall_score : Q;
  is_worthy : bool;
  metrics : ContentMetrics Q;
  evaluation_timestamp : Z;
  confidence_score : Q;
  reasons : list string
}.

(** ** What the NLP handles return *)

(** A spaCy token, with the two attributes the evaluator reads. *)
Record Token : Type := mkToken {
  text : string;
  is_punct : bool;
  dep_ : string
}.

(** A spaCy span (an entity or a sentence). *)
Record Span : Type := mkSpan {
  span_start : nat;
  span_end : nat;
  span_label : string
}.

(** A spaCy [Doc]: iterating it yields its tokens, [len(doc)] counts them. *)
Record Doc : Type := mkDoc {
  tokens : list Token;
  ents : list Span;
  sents : list Span
}.

(** The dict returned by the zero-shot pipeline. *)
Record ZeroShotOutput : Type := mkZeroShotOutput {
  zs_sequence : string;
  zs_labels : list string;
  zs_scores : list Q
}.

(** One dict of the list returned by the sentiment pipeline. *)
Record SentimentOutput : Type := mkSentimentOutput {
  sent_label : string;
  sent_score : Q
}.

(** ** Pure methods of [ArticleEvaluator] *)

Definition MIN_NAMED_ENTITIES : Z := 5.
Definition MIN_CONTENT_LENGTH : Z := 200.
Definition WORTHY_THRESHOLD : Q := 0.7.

Definition string_in (s : string) (l : list string) : bool :=
  existsb (String.eqb s) l.

(** [_calculate_analytical_depth] *)
Definition _calculate_analytical_depth (doc : Doc) : Q :=
  let analytical_indicators :=
    List.length
      (filter (fun token =>
                 string_in (dep_ token)
                   ["because"; "therefore"; "however"; "moreover"]%string)
              (tokens doc)) in
  Py.min 1.0 (inject_Z (Z.of_nat analytical_indicators) / 10).

(** [_calculate_readability_score] *)
Definition _calculate_readability_score (doc : Doc) : Q :=
  let sentences := Z.of_nat (List.length (sents doc)) in
  let words :=
    Z.of_nat (List.length
                (filter (fun token => negb (is_punct token)) (tokens doc))) in
  let avg_sentence_length :=
    inject_Z words / inject_Z (Py.max_int 1 sentences) in
  1.0 - Py.min 1.0 ((avg_sentence_length - 10) / 30).

(** [_calculate_overall_score] *)
Definition _calculate_overall_score (metrics : ContentMetrics Q) : Q :=
  let w_named_entities := 0.2 in
  let w_fact_density := 0.2 in
  let w_novelty := 0.15 in
  let w_analytical_depth := 0.2 in
  let w_readability := 0.1 in
  let w_topic_relevance := 0.1 in
  let w_sentiment := 0.05 in
  let score :=
    w_named_entities
      * Py.min 1.0 (inject_Z (named_entities_count metrics) / 20)
    + w_fact_density * fact_density_score metrics
    + w_novelty * novelty_score metrics
    + w_analytical_depth * analytical_depth_score metrics
    + w_readability * readability_score metrics
    + w_topic_relevance * topic_relevance_score metrics
    + w_sentiment * Py.abs (sentiment_score metrics) in
  Py.min 1.0 (Py.max 0.0 score).

(** [_calculate_confidence_score].  [np.std] and the float subtraction are
    taken from the carrier [F]. *)
Definition _calculate_confidence_score {F : Type}
    (one : F) (sub : F -> F -> F) (np_std : list F -> F)
    (metrics : ContentMetrics F) : F :=
  let scores :=
    [ fact_density_score metrics;
      novelty_score metrics;
      analytical_depth_score metrics;
      topic_relevance_score metrics ] in
  sub one (np_std scores).

(** [_generate_evaluation_reasons].  The local list [reasons] is threaded
    through the five statements; [append] adds at the end. *)
Definition append (reasons : list string) (r : string) : list string :=
  reasons ++ [r].

Definition _generate_evaluation_reasons
    (metrics : ContentMetrics Q) (overall_score : Q) : list string :=
  let reasons := [] in
  let reasons :=
    if (named_entities_count metrics <? MIN_NAMED_ENTITIES)%Z
    then append reasons "Low number of named entities"%string
    else reasons in
  let reasons :=
    if Qltb 0.7 (fact_density_score metrics)
    then append reasons "High fact density"%string
    else if Qltb (fact_density_score metrics) 0.3
    then append reasons "Low fact density"%string
    else reasons in
  let reasons :=
    if Qltb 0.7 (novelty_score metrics)
    then append reasons "High novelty content"%string
    else if Qltb (novelty_score metrics) 0.3
    then append reasons "Low novelty content"%string
    else reasons in
  let reasons :=
    if Qltb 0.7 (analytical_depth_score metrics)
    then append reasons "Strong analytical depth"%string
    else if Qltb (analytical_depth_score metrics) 0.3
    then append reasons "Lacks analytical depth"%string
    else reasons in
  let reasons :=
    if Qle_bool WORTHY_THRESHOLD overall_score
    then append reasons
           "Meets overall quality threshold for further analysis"%string
    else reasons in
  reasons.

(** ** Exceptions and the provider-call log *)

(** One entry per call to an NLP handle, with the arguments it received. *)
Inductive Call : Type :=
| CallNlp (text : string)
| CallZeroShot (text : string) (candidate_labels : list string)
| CallSentiment (text : string).

(** A computation reads the log so far and returns a value or a raised
    exception together with the extended log. *)
Definition Eval (A : Type) : Type := list Call -> Result A * list Call.

Definition ret {A} (a : A) : Eval A := fun log => (Ok a, log).

Definition bind {A B} (m : Eval A) (k : A -> Eval B) : Eval B :=
  fun log =>
    match m log with
    | (Ok a, log') => k a log'
    | (Raise e, log') => (Raise e, log')
    end.

(** A pure step that may raise. *)
Definition lift {A} (r : Result A) : Eval A := fun log => (r, log).

(** A call to a handle: it is logged, then its outcome is the step's. *)
Definition invoke {A} (c : Call) (r : Result A) : Eval A :=
  fun log => (r, log ++ [c]).

(** A computation only ever adds entries at the end of the log. *)
Definition extends_log {A} (m : Eval A) : Prop :=
  forall log, exists added, snd (m log) = log ++ added.

Notation "x <- m ;; k" := (bind m (fun x => k))
  (at level 61, m at next level, right associativity).

(** ** Methods of [ArticleEvaluator] that use the handles *)

Section Evaluator.

(** [self.nlp], [self.sentiment_analyzer], [self.zero_shot_classifier]
    and numpy's [std] on a list of floats. *)
Variable nlp : string -> Result Doc.
Variable sentiment_analyzer : string -> Result (list SentimentOutput).
Variable zero_shot_classifier :
  string -> list string -> Result ZeroShotOutput.
Variable np_std : list Q -> Q.

(** The candidate labels of [_analyze_novelty]. *)
Definition novelty_labels : list string :=
  ["breaking news"; "common knowledge"; "analysis"; "opinion"]%string.

(** [_analyze_novelty] *)
Definition _analyze_novelty (content : string) : Eval Q :=
  let labels := novelty_labels in
  result <- invoke (CallZeroShot content labels)
                   (zero_shot_classifier content labels) ;;
  let scores := zs_scores result in
  s0 <- lift (index scores 0) ;;
  s2 <- lift (index scores 2) ;;
  ret (s0 * 0.7 + s2 * 0.3).

(** [_analyze_topic_relevance] *)
Definition _analyze_topic_relevance (article : Article) : Eval Q :=
  match categories article with
  | [] => ret 0.5
  | _ :: _ =>
      result <- invoke (CallZeroShot (content article) (categories article))
                       (zero_shot_classifier (content article)
                                             (categories article)) ;;
      lift (max_list (zs_scores result))
  end.

(** [_analyze_sentiment] *)
Definition _analyze_sentiment (content : string) : Eval Q :=
  results <- invoke (CallSentiment (slice_to 512 content))
                    (sentiment_analyzer (slice_to 512 content)) ;;
  result <- lift (index results 0) ;;
  ret (sent_score result).

(** [_calculate_metrics] *)
Definition _calculate_metrics
    (article : Article) (doc : Doc) (named_entities : list Span)
    : Eval (ContentMetrics Q) :=
  let named_entities_count := Z.of_nat (List.length named_entities) in
  let fact_density :=
    inject_Z named_entities_count
    / inject_Z (Z.of_nat (List.length (tokens doc)) + 1) in
  novelty_score <- _analyze_novelty (content article) ;;
  let analytical_depth := _calculate_analytical_depth doc in
  let readability := _calculate_readability_score doc in
  topic_relevance <- _analyze_topic_relevance article ;;
  sentiment <- _analyze_sentiment (content article) ;;
  ret (mkContentMetrics named_entities_count fact_density novelty_score
         analytical_depth readability topic_relevance sentiment).

(** [evaluate].  [uuid] and [now] are the values that [uuid.uuid4()] and
    [datetime.utcnow()] yield during this call. *)
Definition evaluate (article : Article) (uuid : string) (now : Z)
    : Eval ArticleEvaluation :=
  doc <- invoke (CallNlp (content article)) (nlp (content article)) ;;
  let named_entities := ents doc in
  metrics <- _calculate_metrics article doc named_entities ;;
  let overall_score := _calculate_overall_score metrics in
  let is_worthy := Qle_bool WORTHY_THRESHOLD overall_score in
  let reasons := _generate_evaluation_reasons metrics overall_score in
  ret (mkArticleEvaluation uuid overall_score is_worthy metrics now
         (_calculate_confidence_score 1 Qminus np_std metrics) reasons).

End Evaluator.

(** ** The specification's formulas, written from its words *)

Module Spec.

(** [clamp(lo, hi, x)] *)
Definition clamp (lo hi x : Q) : Q := Qmax lo (Qmin hi x).

(** The weighted sum of the normalised metrics. *)
Definition weighted_sum (m : ContentMetrics Q) : Q :=
  0.20 * Qmin 1.0 (inject_Z (named_entities_count m) / 20)
  + 0.20 * fact_density_score m
  + 0.15 * novelty_score m
  + 0.20 * analytical_depth_score m
  + 0.10 * readability_score m
  + 0.10 * topic_relevance_score m
  + 0.05 * Qabs (sentiment_score m).

(** [word_count]: the non-punctuation tokens. *)
Definition word_count (doc : Doc) : Z :=
  Z.of_nat (List.length (filter (fun t => negb (is_punct t)) (tokens doc))).

(** [sentence_count]: the sentence spans. *)
Definition sentence_count (doc : Doc) : Z :=
  Z.of_nat (List.length (sents doc)).

(** [avg_len = word_count / max(1, sentence_count)] *)
Definition avg_len (doc : Doc) : Q :=
  inject_Z (word_count doc) / inject_Z (Z.max 1 (sentence_count doc)).

(** [1.0 - min(1.0, (avg_len - 10) / 30)] *)
Definition readability (avg : Q) : Q := 1 - Qmin 1 ((avg - 10) / 30).

(** The score a zero-shot result gives to [label], found by the label's
    name in the parallel [labels] and [scores] sequences. *)
Fixpoint score_of (label : string) (labels : list string) (scores : list Q)
    : option Q :=
  match labels, scores with
  | l :: labels', s :: scores' =>
      if String.eqb l label then Some s else score_of label labels' scores'
  | _, _ => None
  end.

(** [0.7 * score("breaking news") + 0.3 * score("analysis")] *)
Definition novelty_by_label (r : ZeroShotOutput) : option Q :=
  match score_of "breaking news" (zs_labels r) (zs_scores r),
        score_of "analysis" (zs_labels r) (zs_scores r) with
  | Some b, Some a => Some (0.7 * b + 0.3 * a)
  | _, _ => None
  end.

(** One rule of the reason generator that has a single trigger. *)
Definition rule1 (trigger : bool) (r : string) : list string :=
  if trigger then [r] else [].

(** One rule with a high trigger and, failing that, a low trigger. *)
Definition rule2 (high low : bool) (rh rl : string) : list string :=
  if high then [rh] else if low then [rl] else [].

(** The five rules in their fixed order. *)
Definition reasons (m : ContentMetrics Q) (overall : Q) : list string :=
  rule1 (named_entities_count m <? 5)%Z "Low number of named entities"
  ++ rule2 (Qltb 0.7 (fact_density_score m))
           (Qltb (fact_density_score m) 0.3)
           "High fact density" "Low fact density"
  ++ rule2 (Qltb 0.7 (novelty_score m))
           (Qltb (novelty_score m) 0.3)
           "High novelty content" "Low novelty content"
  ++ rule2 (Qltb 0.7 (analytical_depth_score m))
           (Qltb (analytical_depth_score m) 0.3)
           "Strong analytical depth" "Lacks analytical depth"
  ++ rule1 (Qle_bool 0.7 overall)
           "Meets overall quality threshold for further analysis".

End Spec.

(** ** The confidence score over the reals *)

Module RealConfidence.
Import Reals.
Local Open Scope R_scope.

Definition sum (l : list R) : R := fold_right Rplus 0 l.

(** [arr.mean()] *)
Definition mean (l : list R) : R := sum l / INR (List.length l).

(** [np.std(a)] as numpy computes it with its defaults: the deviations
    from the mean are squared, averaged over all [N] items ([ddof = 0])
    and the square root is taken. *)
Definition np_std (l : list R) : R :=
  let arrmean := mean l in
  let x := map (fun a => a - arrmean) l in
  let x := map (fun d => d * d) x in
  sqrt (sum x / INR (List.length l)).

(** [_calculate_confidence_score] on real-valued metrics. *)
Definition confidence (m : ContentMetrics R) : R :=
  _calculate_confidence_score 1 Rminus np_std m.

(** The population standard deviation of four values, from its
    textbook definition. *)
Definition population_standard_deviation (a b c d : R) : R :=
  let mu := (a + b + c + d) / 4 in
  sqrt (((a - mu) ^ 2 + (b - mu) ^ 2 + (c - mu) ^ 2 + (d - mu) ^ 2) / 4).

End RealConfidence.

(** ** Concrete documents, articles and handles used in the examples *)

Module Fixture.
Local Open Scope string_scope.

Definition word (s : string) : Token := mkToken s false "dep".
Definition punct (s : string) : Token := mkToken s true "punct".

(** [n] word tokens. *)
Definition words (n : nat) : list Token := repeat (word "w") n.

Definition empty_doc : Doc := mkDoc [] [] [].

(** Three words and a full stop, one sentence, one entity. *)
Definition short_doc : Doc :=
  mkDoc [word "Rome"; word "fell"; word "today"; punct "."]
        [mkSpan 0 1 "GPE"] [mkSpan 0 4 ""].

(** One sentence of a hundred words. *)
Definition long_doc : Doc := mkDoc (words 100) [] [mkSpan 0 100 ""].

(** A document analyser that answers every text. *)
Definition nlp_stub (text : string) : Result Doc :=
  if String.eqb text "" then Ok empty_doc else Ok short_doc.

(** A zero-shot classifier that ranks its labels by decreasing score, as
    the transformers pipeline does: here "analysis" comes out on top. *)
Definition zs_ranked (text : string) (labels : list string)
    : Result ZeroShotOutput :=
  Ok (mkZeroShotOutput text
        ["analysis"; "breaking news"; "common knowledge"; "opinion"]
        [0.6; 0.2; 0.1; 0.1]).

(** A zero-shot classifier that answers in the order of the candidate
    labels, with scores 1/2, 1/3, 1/4, ... *)
Fixpoint harmonic (k : positive) (labels : list string) : list Q :=
  match labels with
  | [] => []
  | _ :: rest => (1 # Pos.succ k) :: harmonic (Pos.succ k) rest
  end.

Definition zs_in_order (text : string) (labels : list string)
    : Result ZeroShotOutput :=
  Ok (mkZeroShotOutput text labels (harmonic 1 labels)).

Definition sentiment_stub (text : string) : Result (list SentimentOutput) :=
  Ok [mkSentimentOutput "NEGATIVE" 0.9].

(** Handles that are out of service. *)
Definition nlp_down (text : string) : Result Doc :=
  Raise (ProviderError "nlp down").
Definition zs_down (text : string) (labels : list string)
    : Result ZeroShotOutput :=
  Raise (ProviderError "zero-shot down").
Definition sentiment_down (text : string) : Result (list SentimentOutput) :=
  Raise (ProviderError "sentiment down").

(** A zero-shot classifier that serves the novelty labels only. *)
Definition zs_novelty_only (text : string) (labels : list string)
    : Result ZeroShotOutput :=
  if list_eq_dec string_dec labels novelty_labels
  then zs_in_order text labels
  else Raise (ProviderError "zero-shot down").

(** [np.std] on rationals, rounded down to six decimals. *)
Definition qsum (l : list Q) : Q := fold_right Qplus 0 l.
Definition qsqrt6 (q : Q) : Q :=
  Z.sqrt (Qnum q * 1000000000000 / Zpos (Qden q)) # 1000000.
Definition np_std6 (l : list Q) : Q :=
  let n := inject_Z (Z.of_nat (List.length l)) in
  let arrmean := qsum l / n in
  let x := map (fun a => (a - arrmean) * (a - arrmean)) l in
  Qred (qsqrt6 (Qred (qsum x / n))).

Definition empty_article : Article :=
  mkArticle "t" "" "s" 0 None "u" [].
Definition article_plain : Article :=
  mkArticle "t" "Rome fell today." "s" 0 None "u" [].
Definition article_tagged : Article :=
  mkArticle "t" "Rome fell today." "s" 0 (Some "a") "u"
            ["history"; "sport"].

(** Two contents longer than 512 characters that differ only after
    position 512. *)
Definition pad512 : string := string_of_list_ascii (repeat "a"%char 512).
Definition content_x : string := (pad512 ++ "good")%string.
Definition content_y : string := (pad512 ++ "awful news")%string.

(** Metrics outside their usual domains. *)
Definition wild_metrics : ContentMetrics Q :=
  mkContentMetrics 3 5.0 0.5 0.5 (-3.0) 0.5 (-0.4).

End Fixture.


(** ** The count behind the analytical depth *)

(** The tokens [_calculate_analytical_depth] counts. *)
Definition analytical_indicators (doc : Doc) : nat :=
  List.length
    (filter (fun token =>
               string_in (dep_ token)
                 ["because"; "therefore"; "however"; "moreover"]%string)
            (tokens doc)).

(** The value a computation returns does not depend on the log it is
    given. *)
Definition log_blind {A} (m : Eval A) : Prop :=
  forall log1 log2, fst (m log1) = fst (m log2).

(** ** The article source client and the HTTP surface
    ([app/news_api_client.py], [app/main.py]) *)

Module Web.

Local Open Scope string_scope.

(** A value decoded from JSON.  A dict is kept as its list of items in
    insertion order, keys distinct. *)
#[warnings="-register-all"]
Inductive JSON : Type :=
| JNull
| JBool (b : bool)
| JInt (n : Z)
| JFloat (q : Q)
| JStr (s : string)
| JArr (items : list JSON)
| JObj (fields : list (string * JSON)).

(** [type(x).__name__] *)
Definition type_name (x : JSON) : string :=
  match x with
  | JNull => "NoneType"
  | JBool _ => "bool"
  | JInt _ => "int"
  | JFloat _ => "float"
  | JStr _ => "str"
  | JArr _ => "list"
  | JObj _ => "dict"
  end.

(** [bool(x)] *)
Definition truthy (x : JSON) : bool :=
  match x with
  | JNull => false
  | JBool b => b
  | JInt n => negb (n =? 0)%Z
  | JFloat q => negb (Qeq_bool q 0)
  | JStr s => negb (String.eqb s "")
  | JArr items => match items with [] => false | _ :: _ => true end
  | JObj fields => match fields with [] => false | _ :: _ => true end
  end.

(** Exceptions seen by the client and the endpoints. *)
Inductive Error : Type :=
| AttributeError (type_of_object attribute : string)
| TypeError (type_of_object : string)
| Exception_ (msg : string)
| LibraryError (msg : string)
| EvaluatorError (e : Py.Exception).

Inductive Try (A : Type) : Type :=
| Returned (a : A)
| Raised (e : Error).
Arguments Returned {A} a.
Arguments Raised {A} e.

Definition try_bind {A B} (m : Try A) (k : A -> Try B) : Try B :=
  match m with
  | Returned a => k a
  | Raised e => Raised e
  end.

Notation "x <~ m ;; k" := (try_bind m (fun x => k))
  (at level 61, m at next level, right associativity).

(** Item lookup in a dict. *)
Fixpoint dict_lookup {V} (d : list (string * V)) (key : string) : option V :=
  match d with
  | [] => None
  | (k, v) :: rest => if String.eqb k key then Some v else dict_lookup rest key
  end.

(** [d[key] = v]: replaces the item in place, or adds it at the end. *)
Fixpoint dict_set {V} (d : list (string * V)) (key : string) (v : V)
    : list (string * V) :=
  match d with
  | [] => [(key, v)]
  | (k, w) :: rest =>
      if String.eqb k key then (k, v) :: rest
      else (k, w) :: dict_set rest key v
  end.

Definition keys {V} (d : list (string * V)) : list string := map fst d.

(** [obj.get(key, default)]: only a dict has [get]. *)
Definition get (obj : JSON) (key : string) (default : JSON) : Try JSON :=
  match obj with
  | JObj fields =>
      Returned (match dict_lookup fields key with
                | Some v => v
                | None => default
                end)
  | _ => Raised (AttributeError (type_name obj) "get")
  end.

(** What [for x in obj] runs through: a list's items, a dict's keys, a
    string's characters; anything else is not iterable. *)
Definition iterate (obj : JSON) : Try (list JSON) :=
  match obj with
  | JArr items => Returned items
  | JObj fields => Returned (map (fun kv => JStr (fst kv)) fields)
  | JStr s =>
      Returned (map (fun c => JStr (String c EmptyString))
                    (list_ascii_of_string s))
  | _ => Raised (TypeError (type_name obj))
  end.

(** The dict built for each article by [_process_articles]; its keys are
    fixed, so it is a record. *)
Record ProcessedArticle : Type := mkProcessedArticle {
  pa_title : JSON;
  pa_content : JSON;
  pa_source : JSON;
  pa_published_date : Z;
  pa_author : JSON;
  pa_url : JSON;
  pa_categories : list JSON;
  pa_entities : JSON;
  pa_image_url : JSON;
  pa_language : JSON;
  pa_location : JSON
}.

Record NewsAPIConfig : Type := mkNewsAPIConfig {
  api_key : string;
  endpoint : string
}.

(** An open [aiohttp.ClientSession]. *)
Inductive ClientSession : Type := Session (id : nat).

Record NewsAPIClient : Type := mkNewsAPIClient {
  config : NewsAPIConfig;
  session : option ClientSession
}.

(** [NewsAPIClient.__init__] *)
Definition new_client (config : NewsAPIConfig) : NewsAPIClient :=
  mkNewsAPIClient config None.

(** The values put in the query parameters. *)
Inductive ParamValue : Type :=
| PStr (s : string)
| PInt (n : Z)
| PBool (b : bool).

Definition Params : Type := list (string * ParamValue).

(** One [session.get] call. *)
Record Request : Type := mkRequest {
  req_session : ClientSession;
  req_url : string;
  req_params : Params
}.

(** What the client reads from an HTTP response. *)
Record Response : Type := mkResponse {
  status : Z;
  text : Try string;
  json : Try JSON
}.

(** [sep.join(items)] *)
Definition join (sep : string) (items : list string) : string :=
  String.concat sep items.

Section Client.

(** [dateutil.parser.parse], [datetime.strftime("%Y-%m-%d")],
    [session.get] and [str] on the exceptions that carry no message of
    their own in the model. *)
Variable parse : JSON -> Try Z.
Variable strftime_ymd : Z -> string.
Variable session_get : ClientSession -> string -> Params -> Try Response.
Variable builtin_str : Error -> string.

(** [str(e)] *)
Definition str (e : Error) : string :=
  match e with
  | Exception_ msg => msg
  | _ => builtin_str e
  end.

(** The comprehension over an article's categories: the labels that are
    truthy, in order. *)
Fixpoint category_labels (cats : list JSON) : Try (list JSON) :=
  match cats with
  | [] => Returned []
  | cat :: rest =>
      label <~ get cat "label" JNull ;;
      if truthy label
      then (kept <~ get cat "label" (JStr "") ;;
            labels <~ category_labels rest ;;
            Returned (kept :: labels))
      else category_labels rest
  end.

(** The body of the loop of [_process_articles]: the dict for one article. *)
Definition process_article (article : JSON) : Try ProcessedArticle :=
  title <~ get article "title" (JStr "") ;;
  content <~ get article "body" (JStr "") ;;
  source_obj <~ get article "source" (JObj []) ;;
  source <~ get source_obj "title" (JStr "") ;;
  date_time <~ get article "dateTime" (JStr "") ;;
  published_date <~ parse date_time ;;
  author <~ get article "author" (JStr "") ;;
  url <~ get article "url" (JStr "") ;;
  cats_obj <~ get article "categories" (JArr []) ;;
  cats <~ iterate cats_obj ;;
  categories <~ category_labels cats ;;
  entities <~ get article "entities" (JArr []) ;;
  image_url <~ get article "image" (JStr "") ;;
  language <~ get article "language" (JStr "") ;;
  location <~ get article "location" (JObj []) ;;
  Returned (mkProcessedArticle title content source published_date author url
              categories entities image_url language location).

(** The loop of [_process_articles], with the list it appends to. *)
Fixpoint process_loop (items : list JSON) (articles : list ProcessedArticle)
    : Try (list ProcessedArticle) :=
  match items with
  | [] => Returned articles
  | article :: rest =>
      processed_article <~ process_article article ;;
      process_loop rest (articles ++ [processed_article])
  end.

(** [_process_articles] *)
Definition _process_articles (api_response : JSON)
    : Try (list ProcessedArticle) :=
  articles_obj <~ get api_response "articles" (JObj []) ;;
  results <~ get articles_obj "results" (JArr []) ;;
  items <~ iterate results ;;
  process_loop items [].

(** Truth value of an optional string and of an optional list. *)
Definition given_str (x : option string) : bool :=
  match x with
  | Some s => negb (String.eqb s "")
  | None => false
  end.

Definition given_list (x : option (list string)) : bool :=
  match x with
  | Some (_ :: _) => true
  | _ => false
  end.

(** The [params] dict that [fetch_articles] builds. *)
Definition build_params (self : NewsAPIClient)
    (query : option string) (from_date to_date : option Z)
    (languages : list string)
    (categories source_locations : option (list string)) (limit : Z)
    : Params :=
  let params :=
    [ ("apiKey", PStr (api_key (config self)));
      ("articlesSortBy", PStr "date");
      ("articlesCount", PInt limit);
      ("articlesSortByAsc", PBool false);
      ("includeArticleCategories", PBool true);
      ("includeArticleImage", PBool true);
      ("includeArticleBasicInfo", PBool true);
      ("includeArticleLocation", PBool true);
      ("includeArticleEntities", PBool true);
      ("language", PStr (join "," languages)) ] in
  let params :=
    match query with
    | Some q => if given_str query then dict_set params "q" (PStr q)
                else params
    | None => params
    end in
  let params :=
    match from_date with
    | Some d => dict_set params "dateStart" (PStr (strftime_ymd d))
    | None => params
    end in
  let params :=
    match to_date with
    | Some d => dict_set params "dateEnd" (PStr (strftime_ymd d))
    | None => params
    end in
  let params :=
    match categories with
    | Some cs => if given_list categories
                 then dict_set params "categoryUri" (PStr (join "," cs))
                 else params
    | None => params
    end in
  let params :=
    match source_locations with
    | Some ls => if given_list source_locations
                 then dict_set params "sourceLocationUri"
                        (PStr (join "," ls))
                 else params
    | None => params
    end in
  params.

(** The [try] block of [fetch_articles]: its outcome and the requests it
    sent. *)
Definition fetch_attempt (self : NewsAPIClient) (params : Params)
    : Try (list ProcessedArticle) * list Request :=
  match session self with
  | None => (Raised (AttributeError "NoneType" "get"), [])
  | Some s =>
      (response <~ session_get s (endpoint (config self)) params ;;
       if negb (status response =? 200)%Z
       then (error_text <~ text response ;;
             Raised (Exception_ ("NewsAPI request failed: " ++ error_text)))
       else (data <~ json response ;;
             _process_articles data),
       [mkRequest s (endpoint (config self)) params])
  end.

(** [fetch_articles] *)
Definition fetch_articles (self : NewsAPIClient)
    (query : option string) (from_date to_date : option Z)
    (languages : list string)
    (categories source_locations : option (list string)) (limit : Z)
    : Try (list ProcessedArticle) * list Request :=
  let params :=
    build_params self query from_date to_date languages categories
      source_locations limit in
  match fetch_attempt self params with
  | (Returned articles, sent) => (Returned articles, sent)
  | (Raised e, sent) =>
      (Raised (Exception_ ("Error fetching articles from NewsAPI: " ++ str e)),
       sent)
  end.

End Client.

(** *** [app/main.py] *)

(** [Settings], as read once at import. *)
Record Settings : Type := mkSettings {
  newsapi_key : string;
  newsapi_endpoint : string;
  default_language : string;
  articles_limit : Z
}.

Record FetchArticlesRequest : Type := mkFetchArticlesRequest {
  fr_query : option string;
  fr_from_date : option Z;
  fr_to_date : option Z;
  fr_languages : list string;
  fr_categories : option (list string);
  fr_source_locations : option (list string);
  fr_limit : option Z
}.

(** One item of ["results"]. *)
Record WorthyArticle : Type := mkWorthyArticle {
  wa_article : ProcessedArticle;
  wa_evaluation : ArticleEvaluation
}.

(** The dict returned by [fetch_and_evaluate_articles]. *)
Record FetchAndEvaluateResponse : Type := mkFetchAndEvaluateResponse {
  total_articles : nat;
  worthy_articles : nat;
  results : list WorthyArticle
}.

(** What an endpoint hands back to FastAPI. *)
Inductive Outcome (A : Type) : Type :=
| Respond (body : A)
| HTTPException (status_code : Z) (detail : string).
Arguments Respond {A} body.
Arguments HTTPException {A} status_code detail.

(** [x or y] on an optional integer. *)
Definition or_int (x : option Z) (y : Z) : Z :=
  match x with
  | Some n => if (n =? 0)%Z then y else n
  | None => y
  end.

Section Main.

Variable parse : JSON -> Try Z.
Variable strftime_ymd : Z -> string.
Variable session_get : ClientSession -> string -> Params -> Try Response.
Variable builtin_str : Error -> string.

(** The handles of the module-level [evaluator]. *)
Variable nlp : string -> Result Doc.
Variable sentiment_analyzer : string -> Result (list SentimentOutput).
Variable zero_shot_classifier : string -> list string -> Result ZeroShotOutput.
Variable np_std : list Q -> Q.

(** The validation that building an [Article] from an article dict runs
    (pydantic), and the successive values of [uuid.uuid4()] and
    [datetime.utcnow()]. *)
Variable make_article : ProcessedArticle -> Try Article.
Variable uuid4 : nat -> string.
Variable utcnow : nat -> Z.

Variable settings : Settings.

(** [get_news_api_client]: the client is handed over with its session
    open. *)
Definition get_news_api_client (s : ClientSession) : NewsAPIClient :=
  mkNewsAPIClient
    (mkNewsAPIConfig (newsapi_key settings) (newsapi_endpoint settings))
    (Some s).

(** The [for] loop of [fetch_and_evaluate_articles]; [k] counts the
    evaluations made so far. *)
Fixpoint evaluate_each (articles : list ProcessedArticle) (k : nat)
    (evaluated_articles : list WorthyArticle) (log : list Call)
    : Try (list WorthyArticle) * list Call :=
  match articles with
  | [] => (Returned evaluated_articles, log)
  | article_data :: rest =>
      match make_article article_data with
      | Raised e => (Raised e, log)
      | Returned article =>
          match evaluate nlp sentiment_analyzer zero_shot_classifier np_std
                  article (uuid4 k) (utcnow k) log with
          | (Raise e, log') => (Raised (EvaluatorError e), log')
          | (Ok evaluation, log') =>
              let evaluated_articles :=
                if is_worthy evaluation
                then (evaluated_articles
                      ++ [mkWorthyArticle article_data evaluation])%list
                else evaluated_articles in
              evaluate_each rest (S k) evaluated_articles log'
          end
      end
  end.

(** The call to [news_client.fetch_articles] made by
    [fetch_and_evaluate_articles]. *)
Definition fetch_for (request : FetchArticlesRequest)
    (news_client : NewsAPIClient)
    : Try (list ProcessedArticle) * list Request :=
  fetch_articles parse strftime_ymd session_get builtin_str news_client
    (fr_query request) (fr_from_date request) (fr_to_date request)
    (fr_languages request) (fr_categories request)
    (fr_source_locations request)
    (or_int (fr_limit request) (articles_limit settings)).

(** [fetch_and_evaluate_articles]: the outcome, the calls made to the NLP
    handles and the requests sent. *)
Definition fetch_and_evaluate_articles
    (request : FetchArticlesRequest) (news_client : NewsAPIClient)
    (log : list Call)
    : Outcome FetchAndEvaluateResponse * list Call * list Request :=
  let fetched := fetch_for request news_client in
  match fetched with
  | (Raised e, sent) => (HTTPException 500 (str builtin_str e), log, sent)
  | (Returned articles, sent) =>
      match evaluate_each articles 0 [] log with
      | (Raised e, log') => (HTTPException 500 (str builtin_str e), log', sent)
      | (Returned evaluated_articles, log') =>
          (Respond (mkFetchAndEvaluateResponse
                      (List.length articles)
                      (List.length evaluated_articles)
                      evaluated_articles),
           log', sent)
      end
  end.

(** What evaluating one article dict on its own gives: the validation
    error, the evaluator's exception, or the evaluation. *)
Definition evaluation_of (article_data : ProcessedArticle)
    : Try ArticleEvaluation :=
  match make_article article_data with
  | Raised e => Raised e
  | Returned article =>
      match fst (evaluate nlp sentiment_analyzer zero_shot_classifier np_std
                   article "" 0 []) with
      | Ok evaluation => Returned evaluation
      | Raise e => Raised (EvaluatorError e)
      end
  end.

(** The article dict validates, evaluates, and is found worthy. *)
Definition is_worthy_article (article_data : ProcessedArticle) : bool :=
  match evaluation_of article_data with
  | Returned evaluation => is_worthy evaluation
  | Raised _ => false
  end.

(** The article dict validates and evaluates. *)
Definition can_be_evaluated (article_data : ProcessedArticle) : bool :=
  match evaluation_of article_data with
  | Returned _ => true
  | Raised _ => false
  end.

End Main.

End Web.

(** ** More concrete inputs *)

Module Sample.
Import Web.
Local Open Scope string_scope.

(** A date parser that knows one date and rejects the empty string. *)
Definition parse_stub (x : JSON) : Try Z :=
  match x with
  | JStr s => if String.eqb s "" then Raised (LibraryError "no date")
              else Returned 1700000000%Z
  | _ => Raised (LibraryError "not a string")
  end.

Definition strftime_stub (d : Z) : string := "2023-11-14".

Definition builtin_str_stub (e : Error) : string :=
  match e with
  | LibraryError msg => msg
  | AttributeError t a => "'" ++ t ++ "' object has no attribute '" ++ a ++ "'"
  | TypeError t => "'" ++ t ++ "' object is not iterable"
  | EvaluatorError (ProviderError cause) => cause
  | EvaluatorError IndexError => "list index out of range"
  | _ => "error"
  end.

(** An article as the news API sends it, with one empty category label
    and one category without label. *)
Definition raw_article (title body : string) : JSON :=
  JObj [ ("title", JStr title);
         ("body", JStr body);
         ("source", JObj [("title", JStr "Gazette")]);
         ("dateTime", JStr "2023-11-14T22:13:20Z");
         ("url", JStr "http://x/1");
         ("categories",
          JArr [ JObj [("label", JStr "history")];
                 JObj [("label", JStr "")];
                 JObj [("uri", JStr "dmoz/Sports")];
                 JObj [("label", JStr "sport")] ]) ].

Definition api_response_two : JSON :=
  JObj [("articles",
         JObj [("results",
                JArr [raw_article "One" "Rome fell today.";
                      raw_article "Two" "Nothing happened."])])].

(** A server that answers 200 with two articles, and one that refuses. *)
Definition server_ok (s : ClientSession) (url : string) (params : Params)
    : Try Response :=
  Returned (mkResponse 200 (Returned "") (Returned api_response_two)).

Definition server_refuses (s : ClientSession) (url : string) (params : Params)
    : Try Response :=
  Returned (mkResponse 401 (Returned "bad key")
              (Raised (LibraryError "not json"))).

Definition settings_stub : Settings :=
  mkSettings "KEY" "https://api.newsapi.ai/api/v1/article/getArticles"
             "eng" 100.

Definition client_open : NewsAPIClient :=
  mkNewsAPIClient (mkNewsAPIConfig "KEY" "http://news") (Some (Session 1)).

(** Validation that accepts string fields only. *)
Definition as_str (x : JSON) : Try string :=
  match x with
  | JStr s => Returned s
  | _ => Raised (LibraryError "validation error")
  end.

Fixpoint as_strs (xs : list JSON) : Try (list string) :=
  match xs with
  | [] => Returned []
  | x :: rest =>
      s <~ as_str x ;; ss <~ as_strs rest ;; Returned (s :: ss)
  end.

Definition make_article_stub (d : ProcessedArticle) : Try Article :=
  title <~ as_str (pa_title d) ;;
  content <~ as_str (pa_content d) ;;
  source <~ as_str (pa_source d) ;;
  author <~ as_str (pa_author d) ;;
  url <~ as_str (pa_url d) ;;
  categories <~ as_strs (pa_categories d) ;;
  Returned (mkArticle title content source (pa_published_date d)
              (Some author) url categories).

(** A zero-shot classifier that is sure of every label, so that entity-rich
    articles come out worthy. *)
Definition zs_sure (text : string) (labels : list string)
    : Result ZeroShotOutput :=
  Ok (mkZeroShotOutput text labels (map (fun _ => 1.0%Q) labels)).

(** A document analyser that finds twenty entities in a text that starts
    with a capital R, and an empty document elsewhere. *)
Definition busy_doc : Doc :=
  mkDoc (repeat (mkToken "Rome" false "because") 20)
        (repeat (mkSpan 0 1 "GPE") 20) [mkSpan 0 20 ""].

Definition nlp_by_text (t : string) : Result Doc :=
  match t with
  | String "R" _ => Ok busy_doc
  | _ => Ok Fixture.empty_doc
  end.

Definition uuid_stub (k : nat) : string :=
  match k with O => "id-0" | S O => "id-1" | _ => "id-n" end.

Definition utcnow_stub (k : nat) : Z := 1700000000 + Z.of_nat k.

(** A zero-shot classifier that returns two scores whatever it is asked. *)
Definition zs_two (text : string) (labels : list string)
    : Result ZeroShotOutput :=
  Ok (mkZeroShotOutput text ["a"; "b"] [0.9%Q; 0.1%Q]).

Definition request_rome : FetchArticlesRequest :=
  mkFetchArticlesRequest (Some "rome") None None ["eng"] None None None.

(** The endpoint, run against a given server and sentiment classifier. *)
Definition run_endpoint
    (server : ClientSession -> string -> Params -> Try Response)
    (sentiment : string -> Result (list SentimentOutput))
    : Outcome FetchAndEvaluateResponse * list Call * list Request :=
  fetch_and_evaluate_articles parse_stub strftime_stub server
    builtin_str_stub nlp_by_text sentiment zs_sure Fixture.np_std6
    make_article_stub uuid_stub utcnow_stub settings_stub request_rome
    (get_news_api_client settings_stub (Session 1)) [].

End Sample.
(** * Properties *)

(** ** Comparisons and the Python built-ins *)

Lemma Qltb_spec (x y : Q) : BoolSpec (x < y) (y <= x) (Qltb x y).
Proof.
  unfold Qltb. destruct (Qle_bool y x) eqn:E; simpl; constructor.
  - now apply Qle_bool_iff.
  - apply Qnot_le_lt. intro H. apply Qle_bool_iff in H. congruence.
Qed.

Lemma Qle_bool_spec (x y : Q) : BoolSpec (x <= y) (y < x) (Qle_bool x y).
Proof.
  destruct (Qle_bool x y) eqn:E; constructor.
  - now apply Qle_bool_iff.
  - apply Qnot_le_lt. intro H. apply Qle_bool_iff in H. congruence.
Qed.

(** Destructs every float comparison in sight into its two order facts. *)
Ltac by_comparisons :=
  repeat match goal with
         | |- context [Qltb ?a ?b] => destruct (Qltb_spec a b)
         | |- context [Qle_bool ?a ?b] => destruct (Qle_bool_spec a b)
         end.

Lemma py_min_Qmin (a b : Q) : Py.min a b == Qmin a b.
Proof.
  unfold Py.min. destruct (Qltb_spec b a) as [H|H].
  - symmetry. apply Q.min_r. now apply Qlt_le_weak.
  - symmetry. now apply Q.min_l.
Qed.

Lemma py_max_Qmax (a b : Q) : Py.max a b == Qmax a b.
Proof.
  unfold Py.max. destruct (Qltb_spec a b) as [H|H].
  - symmetry. apply Q.max_r. now apply Qlt_le_weak.
  - symmetry. now apply Q.max_l.
Qed.

Lemma py_abs_Qabs (x : Q) : Py.abs x == Qabs x.
Proof.
  unfold Py.abs. destruct (Qltb_spec x 0) as [H|H].
  - symmetry. apply Qabs_neg. now apply Qlt_le_weak.
  - symmetry. now apply Qabs_pos.
Qed.

Lemma py_max_int_Zmax (a b : Z) : Py.max_int a b = Z.max a b.
Proof. unfold Py.max_int. destruct (Z.ltb_spec a b); lia. Qed.

Lemma py_min_le_l (a b : Q) : Py.min a b <= a.
Proof.
  unfold Py.min. destruct (Qltb_spec b a); [now apply Qlt_le_weak | apply Qle_refl].
Qed.

Lemma py_min_le_r (a b : Q) : Py.min a b <= b.
Proof. unfold Py.min. destruct (Qltb_spec b a); [apply Qle_refl | assumption]. Qed.

Lemma py_min_glb (a b c : Q) : c <= a -> c <= b -> c <= Py.min a b.
Proof. intros Ha Hb. unfold Py.min. now destruct (Qltb b a). Qed.

(** ** The overall score *)

Lemma overall_score_bounds (m : ContentMetrics Q) :
  0 <= _calculate_overall_score m <= 1.
Proof.
  unfold _calculate_overall_score. cbv zeta.
  set (score := (_ + _)%Q). clearbody score.
  unfold Py.max; by_comparisons; unfold Py.min; by_comparisons; Lqa.lra.
Qed.

Lemma clamp_cases (x : Q) :
  (x <= 0 /\ Spec.clamp 0 1 x == 0)
  \/ (0 <= x <= 1 /\ Spec.clamp 0 1 x == x)
  \/ (1 <= x /\ Spec.clamp 0 1 x == 1).
Proof.
  unfold Spec.clamp.
  destruct (Q.min_spec 1 x) as [[H1 E1]|[H1 E1]];
    destruct (Q.max_spec 0 (Qmin 1 x)) as [[H2 E2]|[H2 E2]];
    rewrite E2; rewrite E1 in *.
  - right; right. split; [Lqa.lra | reflexivity].
  - Lqa.lra.
  - right; left. split; [Lqa.lra | reflexivity].
  - left. split; [Lqa.lra | reflexivity].
Qed.

Lemma py_clamp (x : Q) : Py.min 1.0 (Py.max 0.0 x) == Spec.clamp 0 1 x.
Proof.
  destruct (clamp_cases x) as [[H E]|[[H E]|[H E]]]; rewrite E;
    unfold Py.max; by_comparisons; unfold Py.min; by_comparisons; Lqa.lra.
Qed.

Lemma clamp_compat (x y : Q) : x == y -> Spec.clamp 0 1 x == Spec.clamp 0 1 y.
Proof.
  intro E.
  destruct (clamp_cases x) as [[H1 E1]|[[H1 E1]|[H1 E1]]];
    destruct (clamp_cases y) as [[H2 E2]|[[H2 E2]|[H2 E2]]];
    rewrite E1, E2; Lqa.lra.
Qed.

(** C2. For every metrics record, also one whose fields lie outside their
    usual domains, [_calculate_overall_score] returns the weighted sum of
    the normalised metrics clamped to [0, 1] (weights 0.20, 0.20, 0.15,
    0.20, 0.10, 0.10, 0.05; entity count normalised as min(1, n/20),
    sentiment by absolute value), and so the result lies in [0, 1]. *)
Theorem C2_overall_score_is_clamped_weighted_sum (m : ContentMetrics Q) :
  _calculate_overall_score m == Spec.clamp 0 1 (Spec.weighted_sum m)
  /\ 0 <= _calculate_overall_score m <= 1.
Proof.
  split; [| apply overall_score_bounds].
  unfold _calculate_overall_score. cbv zeta.
  rewrite py_clamp. apply clamp_compat.
  unfold Spec.weighted_sum.
  rewrite py_min_Qmin, py_abs_Qabs. Lqa.lra.
Qed.

(** The out-of-range record of the specification's test (fact density 5.0,
    readability -3.0): the weighted sum is 0.975 and the score is in range. *)
Example overall_score_wild :
  _calculate_overall_score Fixture.wild_metrics == 0.975.
Proof. reflexivity. Qed.

(** ** The reason generator *)

Lemma reasons_refine (m : ContentMetrics Q) (overall : Q) :
  _generate_evaluation_reasons m overall = Spec.reasons m overall.
Proof.
  unfold _generate_evaluation_reasons, Spec.reasons, Spec.rule1, Spec.rule2,
    append, MIN_NAMED_ENTITIES, WORTHY_THRESHOLD.
  destruct (named_entities_count m <? 5)%Z;
    destruct (Qltb 0.7 (fact_density_score m));
    destruct (Qltb (fact_density_score m) 0.3);
    destruct (Qltb 0.7 (novelty_score m));
    destruct (Qltb (novelty_score m) 0.3);
    destruct (Qltb 0.7 (analytical_depth_score m));
    destruct (Qltb (analytical_depth_score m) 0.3);
    destruct (Qle_bool 0.7 overall); reflexivity.
Qed.

(** Membership in a concatenation of rule outputs is decided rule by rule. *)
Ltac reason_membership :=
  unfold Spec.rule1, Spec.rule2;
  repeat match goal with
         | |- context [Qltb ?a ?b] => destruct (Qltb_spec a b)
         | |- context [Qle_bool ?a ?b] => destruct (Qle_bool_spec a b)
         | |- context [(?a <? ?b)%Z] => destruct (Z.ltb_spec a b)
         end;
  simpl;
  (split;
  [ let Hin := fresh "Hin" in
    intros Hin;
    repeat match type of Hin with
           | _ \/ _ => destruct Hin as [Hin|Hin]
           end;
    first [ discriminate Hin | contradiction | assumption | lia | Lqa.lra ]
  | let Hc := fresh "Hc" in
    intros Hc; first [ lia | Lqa.lra | now auto 8 ] ]).

(** C7. [_generate_evaluation_reasons] returns the sequence obtained by
    running the five threshold rules in their fixed order (entities < 5;
    fact density > 0.7 else < 0.3; novelty > 0.7 else < 0.3; analytical
    depth > 0.7 else < 0.3; overall >= 0.7), each reason being present
    exactly when its own trigger holds, whatever the other rules did.  The
    result is a function of the inputs, so equal inputs give equal
    sequences, and it is empty when no trigger holds. *)
Theorem C7_reasons_in_fixed_order (m : ContentMetrics Q) (overall : Q) :
  let rs := _generate_evaluation_reasons m overall in
  rs = Spec.reasons m overall
  /\ (In "Low number of named entities"%string rs
      <-> (named_entities_count m < 5)%Z)
  /\ (In "High fact density"%string rs <-> 0.7 < fact_density_score m)
  /\ (In "Low fact density"%string rs <-> fact_density_score m < 0.3)
  /\ (In "High novelty content"%string rs <-> 0.7 < novelty_score m)
  /\ (In "Low novelty content"%string rs <-> novelty_score m < 0.3)
  /\ (In "Strong analytical depth"%string rs
      <-> 0.7 < analytical_depth_score m)
  /\ (In "Lacks analytical depth"%string rs
      <-> analytical_depth_score m < 0.3)
  /\ (In "Meets overall quality threshold for further analysis"%string rs
      <-> 0.7 <= overall).
Proof.
  cbv zeta. rewrite reasons_refine. split; [reflexivity |].
  unfold Spec.reasons.
  do 7 (split; [reason_membership |]). reason_membership.
Qed.

(** ** The readability score *)

Lemma readability_refine (doc : Doc) :
  _calculate_readability_score doc == Spec.readability (Spec.avg_len doc).
Proof.
  unfold _calculate_readability_score, Spec.readability, Spec.avg_len,
    Spec.word_count, Spec.sentence_count. cbv zeta.
  rewrite py_min_Qmin, py_max_int_Zmax.
  set (avg := (inject_Z _ / inject_Z _)%Q).
  destruct (Q.min_spec 1.0 ((avg - 10) / 30)) as [[H1 E1]|[H1 E1]];
    destruct (Q.min_spec 1 ((avg - 10) / 30)) as [[H2 E2]|[H2 E2]];
    rewrite E1, E2; Lqa.lra.
Qed.

Lemma avg_len_nonneg (doc : Doc) : 0 <= Spec.avg_len doc.
Proof.
  unfold Spec.avg_len, Spec.word_count, Spec.sentence_count.
  apply Qle_shift_div_l.
  - change 0 with (inject_Z 0). rewrite <- Zlt_Qlt. lia.
  - rewrite Qmult_0_l. change 0 with (inject_Z 0). rewrite <- Zle_Qle. lia.
Qed.

(** Division by the constant 30, put in a form linear arithmetic reads. *)
Ltac div30 := unfold Qdiv in *; change (/ 30) with (1 # 30) in *.

Lemma spec_readability_cases (avg : Q) :
  (avg < 40 /\ Spec.readability avg == 1 - (avg - 10) / 30)
  \/ (40 <= avg /\ Spec.readability avg == 0).
Proof.
  unfold Spec.readability.
  destruct (Q.min_spec 1 ((avg - 10) / 30)) as [[H E]|[H E]]; rewrite E.
  - right. div30. split; Lqa.lra.
  - destruct (Qlt_le_dec avg 40); [left | right]; div30; split; Lqa.lra.
Qed.

Lemma readability_nonneg (doc : Doc) : 0 <= _calculate_readability_score doc.
Proof.
  rewrite readability_refine.
  destruct (spec_readability_cases (Spec.avg_len doc)) as [[H E]|[H E]];
    rewrite E; div30; Lqa.lra.
Qed.

(** C10. For every document the readability score lies in [0, 4/3]; it is
    strictly above 1 whenever the average sentence length is below 10, and
    the empty document scores exactly 4/3. *)
Theorem C10_readability_range (doc : Doc) :
  0 <= _calculate_readability_score doc <= 4 # 3
  /\ (Spec.avg_len doc < 10 -> 1 < _calculate_readability_score doc)
  /\ _calculate_readability_score Fixture.empty_doc == 4 # 3.
Proof.
  split; [split; [apply readability_nonneg |] | split; [| reflexivity]].
  - rewrite readability_refine. pose proof (avg_len_nonneg doc) as Hn.
    destruct (spec_readability_cases (Spec.avg_len doc)) as [[H E]|[H E]];
      rewrite E; div30; Lqa.lra.
  - intro Hlt. rewrite readability_refine.
    destruct (spec_readability_cases (Spec.avg_len doc)) as [[H E]|[H E]];
      rewrite E; div30; Lqa.lra.
Qed.

(** Witness of C10 on a three-word sentence, whose score is 37/30. *)
Lemma C10_readability_range_witness :
  Spec.avg_len Fixture.short_doc < 10
  /\ 1 < _calculate_readability_score Fixture.short_doc.
Proof.
  assert (H : Spec.avg_len Fixture.short_doc < 10) by reflexivity.
  split; [exact H |].
  exact (proj1 (proj2 (C10_readability_range Fixture.short_doc)) H).
Defined.

(** C8, as the code has it.  The readability score is
    [1.0 - min(1.0, (avg_len - 10) / 30)] with
    [avg_len = word_count / max(1, sentence_count)] over the
    non-punctuation tokens, and it is bounded below by 0: the [min] caps
    the subtracted term at 1.0, so every document scores at least 0 and a
    document whose average sentence length is 40 or more scores exactly 0. *)
Theorem C8_readability_formula_floor (doc : Doc) :
  _calculate_readability_score doc == Spec.readability (Spec.avg_len doc)
  /\ 0 <= _calculate_readability_score doc
  /\ (40 <= Spec.avg_len doc -> _calculate_readability_score doc == 0).
Proof.
  split; [apply readability_refine | split; [apply readability_nonneg |]].
  intro H40. rewrite readability_refine.
  destruct (spec_readability_cases (Spec.avg_len doc)) as [[H E]|[H E]];
    rewrite E; div30; Lqa.lra.
Qed.

(** Witness of C8 on a single sentence of a hundred words. *)
Lemma C8_readability_formula_floor_witness :
  40 <= Spec.avg_len Fixture.long_doc
  /\ _calculate_readability_score Fixture.long_doc == 0.
Proof.
  assert (H : 40 <= Spec.avg_len Fixture.long_doc) by (vm_compute; discriminate).
  split; [exact H |].
  exact (proj2 (proj2 (C8_readability_formula_floor Fixture.long_doc)) H).
Defined.

(** C8 as stated fails: a sentence of a hundred words scores 0, not -2,
    and no document scores below the bound 0. *)
Lemma C8_readability_not_unbounded_below :
  _calculate_readability_score Fixture.long_doc == 0
  /\ ~ (forall B : Q, exists doc, _calculate_readability_score doc < B).
Proof.
  split; [reflexivity |].
  intro H. destruct (H 0) as [doc Hdoc].
  pose proof (readability_nonneg doc). Lqa.lra.
Qed.

(** ** The confidence score *)

Module RealConfidenceFacts.
Import Reals Lra RealConfidence.
Local Open Scope R_scope.

Lemma np_std_four (a b c d : R) :
  np_std [a; b; c; d] = population_standard_deviation a b c d.
Proof.
  unfold np_std, population_standard_deviation, mean, sum.
  cbn [map fold_right List.length]. f_equal.
  replace (INR 4) with 4 by (simpl; lra). field.
Qed.

Lemma np_std_nonneg (l : list R) : 0 <= np_std l.
Proof. unfold np_std. apply sqrt_pos. Qed.

(** Two of the four metrics at 0 and two at 1: the deviation is 1/2. *)
Example confidence_half :
  confidence (mkContentMetrics 7 0 0 1 9 1 (-1)) = 1 / 2.
Proof.
  unfold confidence, _calculate_confidence_score. cbn [fact_density_score
    novelty_score analytical_depth_score topic_relevance_score].
  rewrite np_std_four. unfold population_standard_deviation. cbv zeta.
  replace (((0 - (0 + 0 + 1 + 1) / 4) ^ 2 + (0 - (0 + 0 + 1 + 1) / 4) ^ 2
            + (1 - (0 + 0 + 1 + 1) / 4) ^ 2
            + (1 - (0 + 0 + 1 + 1) / 4) ^ 2) / 4)
    with ((1 / 2) * (1 / 2)) by field.
  rewrite sqrt_square; lra.
Qed.

(** C5. [_calculate_confidence_score] returns 1.0 minus the population
    standard deviation of fact density, novelty, analytical depth and
    topic relevance; two records that agree on these four fields get the
    same confidence whatever their entity count, readability and
    sentiment are. *)
Theorem C5_confidence_is_one_minus_stdev_of_four
    (fd nov ad tr : R) (n n' : Z) (r r' s s' : R) :
  confidence (mkContentMetrics n fd nov ad r tr s)
  = 1 - population_standard_deviation fd nov ad tr
  /\ confidence (mkContentMetrics n fd nov ad r tr s)
     = confidence (mkContentMetrics n' fd nov ad r' tr s').
Proof.
  split; [| reflexivity].
  unfold confidence, _calculate_confidence_score.
  cbn [fact_density_score novelty_score analytical_depth_score
       topic_relevance_score].
  now rewrite np_std_four.
Qed.

End RealConfidenceFacts.

(** ** Slices and maxima *)

Lemma slice_to_length (n : nat) (s : string) :
  (String.length (slice_to n s) <= n)%nat.
Proof.
  unfold slice_to. revert s.
  induction n as [|n IH]; intros [|c s]; simpl; try lia.
  specialize (IH s). lia.
Qed.

Lemma slice_to_app (n : nat) (s t : string) :
  (n <= String.length s)%nat ->
  slice_to n (String.append s t) = slice_to n s.
Proof.
  unfold slice_to. revert s.
  induction n as [|n IH]; intros [|c s] Hlen; simpl in *; try lia.
  - now destruct t.
  - reflexivity.
  - f_equal. apply IH. lia.
Qed.

Lemma max_from_spec (l : list Q) (best : Q) :
  In (max_from best l) (best :: l)
  /\ forall s, In s (best :: l) -> s <= max_from best l.
Proof.
  revert best. induction l as [|x rest IH]; intro best; simpl.
  - split; [now left |]. intros s [<-|[]]. apply Qle_refl.
  - destruct (IH (if Qltb best x then x else best)) as [Hin Hmax].
    split.
    + destruct Hin as [E|Hin]; [| now right; right].
      rewrite <- E. destruct (Qltb best x); [right | ]; now left.
    + intros s Hs.
      assert (Hstep : s <= (if Qltb best x then x else best)
                      \/ In s rest).
      { destruct Hs as [E|[E|Hs]]; [| | now right]; left; rewrite <- E;
          destruct (Qltb_spec best x); Lqa.lra. }
      destruct Hstep as [Hle|Hr].
      * apply Qle_trans with (2 := Hmax _ (or_introl eq_refl)). exact Hle.
      * apply Hmax. now right.
Qed.

Lemma max_list_spec (l : list Q) :
  l <> [] ->
  exists m, max_list l = Ok m /\ In m l /\ forall s, In s l -> s <= m.
Proof.
  destruct l as [|x rest]; [congruence |]. intros _.
  exists (max_from x rest). split; [reflexivity |]. apply max_from_spec.
Qed.

(** ** Methods that call the handles *)

Section EvaluatorFacts.

Variable nlp : string -> Result Doc.
Variable sentiment_analyzer : string -> Result (list SentimentOutput).
Variable zero_shot_classifier : string -> list string -> Result ZeroShotOutput.
Variable np_std : list Q -> Q.

(** C6. With no declared category, [_analyze_topic_relevance] returns
    exactly 0.5 and leaves the call log untouched, whatever the content and
    the classifier; with declared categories it calls the zero-shot
    classifier once, on the content and those categories, and returns the
    largest of the scores that call yields. *)
Theorem C6_topic_relevance_default_or_maximum
    (article : Article) (log : list Call) :
  (categories article = [] ->
   _analyze_topic_relevance zero_shot_classifier article log = (Ok 0.5, log))
  /\ (categories article <> [] ->
      forall out,
        zero_shot_classifier (content article) (categories article) = Ok out ->
        zs_scores out <> [] ->
        exists m,
          _analyze_topic_relevance zero_shot_classifier article log
          = (Ok m, log ++ [CallZeroShot (content article) (categories article)])
          /\ In m (zs_scores out)
          /\ forall s, In s (zs_scores out) -> s <= m).
Proof.
  unfold _analyze_topic_relevance. split.
  - intros ->. reflexivity.
  - intros Hne out Hout Hscores.
    destruct (categories article) as [|c cs] eqn:Hcat; [congruence |].
    destruct (max_list_spec (zs_scores out) Hscores) as (m & Hm & Hin & Hmax).
    exists m. unfold bind, invoke, lift. rewrite Hout, Hm. auto.
Qed.

Lemma sentiment_same_prefix (content1 content2 : string) (log : list Call) :
  slice_to 512 content1 = slice_to 512 content2 ->
  _analyze_sentiment sentiment_analyzer content1 log
  = _analyze_sentiment sentiment_analyzer content2 log.
Proof. intro Hprefix. unfold _analyze_sentiment. now rewrite Hprefix. Qed.

(** C9. [_analyze_sentiment] submits [content[:512]], a text of at most
    512 characters, to the sentiment classifier and nothing else; two
    contents with the same first 512 characters therefore produce the same
    call and the same outcome, and the score returned is the [score] of the
    classifier's first result, unchanged. *)
Theorem C9_sentiment_depends_on_first_512
    (content1 content2 : string) (log : list Call) :
  slice_to 512 content1 = slice_to 512 content2 ->
  _analyze_sentiment sentiment_analyzer content1 log
  = _analyze_sentiment sentiment_analyzer content2 log
  /\ snd (_analyze_sentiment sentiment_analyzer content1 log)
     = log ++ [CallSentiment (slice_to 512 content1)]
  /\ (String.length (slice_to 512 content1) <= 512)%nat
  /\ (forall top rest,
        sentiment_analyzer (slice_to 512 content1) = Ok (top :: rest) ->
        fst (_analyze_sentiment sentiment_analyzer content1 log)
        = Ok (sent_score top)).
Proof.
  intro Hprefix. split; [now apply sentiment_same_prefix |].
  unfold _analyze_sentiment, bind, invoke, lift, ret. split; [| split].
  - destruct (sentiment_analyzer (slice_to 512 content1)) as [rs|e];
      [destruct (index rs 0) |]; reflexivity.
  - apply slice_to_length.
  - intros top rest ->. reflexivity.
Qed.

(** Whatever follows the 512th character is dropped before the call. *)
Lemma sentiment_ignores_tail (head tail : string) (log : list Call) :
  (512 <= String.length head)%nat ->
  _analyze_sentiment sentiment_analyzer (String.append head tail) log
  = _analyze_sentiment sentiment_analyzer head log.
Proof.
  intro Hlen. apply sentiment_same_prefix. now apply slice_to_app.
Qed.

(** *** Taking a successful run apart *)

Lemma analyze_novelty_ok_inv (content : string) (log log' : list Call) (v : Q) :
  _analyze_novelty zero_shot_classifier content log = (Ok v, log') ->
  exists out s0 s2,
    zero_shot_classifier content novelty_labels = Ok out
    /\ index (zs_scores out) 0 = Ok s0
    /\ index (zs_scores out) 2 = Ok s2
    /\ v = s0 * 0.7 + s2 * 0.3
    /\ log' = log ++ [CallZeroShot content novelty_labels].
Proof.
  unfold _analyze_novelty, bind, invoke, lift, ret.
  destruct (zero_shot_classifier content novelty_labels) as [out|e] eqn:Eout;
    [| discriminate].
  destruct (index (zs_scores out) 0) as [s0|e0] eqn:E0; [| discriminate].
  destruct (index (zs_scores out) 2) as [s2|e2] eqn:E2; [| discriminate].
  intro H. inversion H. exists out, s0, s2. repeat split; auto.
Qed.

Lemma analyze_topic_relevance_ok_inv
    (article : Article) (log log' : list Call) (v : Q) :
  _analyze_topic_relevance zero_shot_classifier article log = (Ok v, log') ->
  (categories article = [] /\ v = 0.5 /\ log' = log)
  \/ (categories article <> []
      /\ exists out,
           zero_shot_classifier (content article) (categories article) = Ok out
           /\ max_list (zs_scores out) = Ok v
           /\ log' = log ++ [CallZeroShot (content article)
                                          (categories article)]).
Proof.
  unfold _analyze_topic_relevance, bind, invoke, lift, ret.
  destruct (categories article) as [|c cs].
  - intro H. inversion H. now left.
  - destruct (zero_shot_classifier (content article) (c :: cs))
      as [out|e] eqn:Eout; [| discriminate].
    intro H. inversion H. right. split; [discriminate |].
    exists out. repeat split; auto.
Qed.

Lemma analyze_sentiment_ok_inv (content : string) (log log' : list Call) (v : Q) :
  _analyze_sentiment sentiment_analyzer content log = (Ok v, log') ->
  exists top rest,
    sentiment_analyzer (slice_to 512 content) = Ok (top :: rest)
    /\ v = sent_score top
    /\ log' = log ++ [CallSentiment (slice_to 512 content)].
Proof.
  unfold _analyze_sentiment, bind, invoke, lift, ret.
  destruct (sentiment_analyzer (slice_to 512 content))
    as [[|top rest]|e] eqn:Eout; try discriminate.
  simpl. intro H. inversion H. exists top, rest. repeat split; auto.
Qed.

Lemma calculate_metrics_ok_inv
    (article : Article) (doc : Doc) (named_entities : list Span)
    (log log' : list Call) (m : ContentMetrics Q) :
  _calculate_metrics sentiment_analyzer zero_shot_classifier
    article doc named_entities log = (Ok m, log') ->
  exists nov tr se log1 log2,
    _analyze_novelty zero_shot_classifier (content article) log
    = (Ok nov, log1)
    /\ _analyze_topic_relevance zero_shot_classifier article log1
       = (Ok tr, log2)
    /\ _analyze_sentiment sentiment_analyzer (content article) log2
       = (Ok se, log')
    /\ m = mkContentMetrics
             (Z.of_nat (List.length named_entities))
             (inject_Z (Z.of_nat (List.length named_entities))
              / inject_Z (Z.of_nat (List.length (tokens doc)) + 1))
             nov (_calculate_analytical_depth doc)
             (_calculate_readability_score doc) tr se.
Proof.
  unfold _calculate_metrics. cbv zeta. unfold bind at 1.
  destruct (_analyze_novelty _ _ log) as [[nov|e] log1] eqn:En;
    [| discriminate].
  unfold bind at 1.
  destruct (_analyze_topic_relevance _ _ log1) as [[tr|e] log2] eqn:Et;
    [| discriminate].
  unfold bind at 1.
  destruct (_analyze_sentiment _ _ log2) as [[se|e] log3] eqn:Es;
    [| discriminate].
  unfold ret. intro H. inversion H. subst.
  exists nov, tr, se, log1, log2. repeat split; auto.
Qed.

Lemma evaluate_ok_inv
    (article : Article) (uuid : string) (now : Z)
    (log log' : list Call) (ev : ArticleEvaluation) :
  evaluate nlp sentiment_analyzer zero_shot_classifier np_std
    article uuid now log = (Ok ev, log') ->
  exists doc m,
    nlp (content article) = Ok doc
    /\ _calculate_metrics sentiment_analyzer zero_shot_classifier
         article doc (ents doc) (log ++ [CallNlp (content article)])
       = (Ok m, log')
    /\ ev = mkArticleEvaluation uuid
              (_calculate_overall_score m)
              (Qle_bool WORTHY_THRESHOLD (_calculate_overall_score m))
              m now
              (_calculate_confidence_score 1 Qminus np_std m)
              (_generate_evaluation_reasons m (_calculate_overall_score m)).
Proof.
  unfold evaluate. cbv zeta. unfold bind at 1. unfold invoke at 1.
  destruct (nlp (content article)) as [doc|e] eqn:Ed; [| discriminate].
  unfold bind at 1.
  destruct (_calculate_metrics _ _ _ _ _ _) as [[m|e] log1] eqn:Em;
    [| discriminate].
  unfold ret. intro H. inversion H. subst. exists doc, m. repeat split; auto.
Qed.

(** C3. Every evaluation that [evaluate] returns has
    [is_worthy = (overall_score >= 0.7)]: a score of exactly 0.7 is worthy
    and any score strictly below 0.7 is not. *)
Theorem C3_is_worthy_iff_score_reaches_threshold
    (article : Article) (uuid : string) (now : Z)
    (log log' : list Call) (ev : ArticleEvaluation) :
  evaluate nlp sentiment_analyzer zero_shot_classifier np_std
    article uuid now log = (Ok ev, log') ->
  is_worthy ev = Qle_bool 0.7 (overall_score ev)
  /\ (is_worthy ev = true <-> 0.7 <= overall_score ev)
  /\ (overall_score ev == 0.7 -> is_worthy ev = true)
  /\ (overall_score ev < 0.7 -> is_worthy ev = false).
Proof.
  intro Hrun. apply evaluate_ok_inv in Hrun as (doc & m & _ & _ & ->).
  cbn [is_worthy overall_score]. unfold WORTHY_THRESHOLD.
  destruct (Qle_bool_spec 0.7 (_calculate_overall_score m)) as [H|H].
  - repeat split; auto. intro. Lqa.lra.
  - repeat split; auto; try discriminate; intro; Lqa.lra.
Qed.

(** *** The call log only grows *)

Lemma extends_ret {A} (a : A) : extends_log (ret a).
Proof. intro log. exists []. simpl. now rewrite app_nil_r. Qed.

Lemma extends_lift {A} (r : Result A) : extends_log (lift r).
Proof. intro log. exists []. simpl. now rewrite app_nil_r. Qed.

Lemma extends_invoke {A} (c : Call) (r : Result A) : extends_log (invoke c r).
Proof. intro log. now exists [c]. Qed.

Lemma extends_bind {A B} (m : Eval A) (k : A -> Eval B) :
  extends_log m -> (forall a, extends_log (k a)) -> extends_log (bind m k).
Proof.
  intros Hm Hk log. unfold bind.
  destruct (Hm log) as [r1 E1]. destruct (m log) as [[a|e] log1]; simpl in E1.
  - destruct (Hk a log1) as [r2 E2]. exists (r1 ++ r2).
    rewrite E2, E1. now rewrite app_assoc.
  - now exists r1.
Qed.

Lemma calculate_metrics_extends
    (article : Article) (doc : Doc) (named_entities : list Span) :
  extends_log (_calculate_metrics sentiment_analyzer zero_shot_classifier
                 article doc named_entities).
Proof.
  unfold _calculate_metrics, _analyze_novelty, _analyze_topic_relevance,
    _analyze_sentiment.
  destruct (categories article);
    repeat first [ apply extends_bind; [| intro]
                 | apply extends_invoke | apply extends_lift
                 | apply extends_ret ].
Qed.

(** C4, as the code has it.  [evaluate] does not inspect the content: for
    every content, the empty one included, its first action is the call to
    the document analyser on that content.  A failing handle aborts the
    evaluation: the exception it raised is the outcome, unchanged, at the
    point of the call, and no later handle is called.  A returned
    evaluation therefore exists only when every call succeeded, and its
    novelty, sentiment and topic-relevance metrics are the values computed
    from what the handles returned (0.5 for topic relevance only when no
    category is declared), never a substitute. *)
Theorem C4_provider_failure_aborts_evaluation
    (article : Article) (uuid : string) (now : Z) (log : list Call) :
  let c := content article in
  let run :=
    evaluate nlp sentiment_analyzer zero_shot_classifier np_std
      article uuid now in
  let log0 := log ++ [CallNlp c] in
  (exists later, snd (run log) = log0 ++ later)
  /\ (forall e, nlp c = Raise e -> run log = (Raise e, log0))
  /\ (forall doc e,
        nlp c = Ok doc ->
        zero_shot_classifier c novelty_labels = Raise e ->
        run log = (Raise e, log0 ++ [CallZeroShot c novelty_labels]))
  /\ (forall doc nov log1 e,
        nlp c = Ok doc ->
        _analyze_novelty zero_shot_classifier c log0 = (Ok nov, log1) ->
        categories article <> [] ->
        zero_shot_classifier c (categories article) = Raise e ->
        run log = (Raise e, log1 ++ [CallZeroShot c (categories article)]))
  /\ (forall doc nov tr log1 log2 e,
        nlp c = Ok doc ->
        _analyze_novelty zero_shot_classifier c log0 = (Ok nov, log1) ->
        _analyze_topic_relevance zero_shot_classifier article log1
        = (Ok tr, log2) ->
        sentiment_analyzer (slice_to 512 c) = Raise e ->
        run log = (Raise e, log2 ++ [CallSentiment (slice_to 512 c)]))
  /\ (forall ev log',
        run log = (Ok ev, log') ->
        exists doc out s0 s2 top rest,
          nlp c = Ok doc
          /\ zero_shot_classifier c novelty_labels = Ok out
          /\ index (zs_scores out) 0 = Ok s0
          /\ index (zs_scores out) 2 = Ok s2
          /\ novelty_score (metrics ev) = s0 * 0.7 + s2 * 0.3
          /\ sentiment_analyzer (slice_to 512 c) = Ok (top :: rest)
          /\ sentiment_score (metrics ev) = sent_score top
          /\ ((categories article = []
               /\ topic_relevance_score (metrics ev) = 0.5)
              \/ exists out',
                   zero_shot_classifier c (categories article) = Ok out'
                   /\ max_list (zs_scores out')
                      = Ok (topic_relevance_score (metrics ev)))).
Proof.
  cbv zeta. repeat apply conj.
  - unfold evaluate. cbv zeta. unfold bind at 1, invoke at 1.
    destruct (nlp (content article)) as [doc|e].
    + apply (extends_bind _ _ (calculate_metrics_extends _ _ _)).
      intro m. apply extends_ret.
    + exists []. simpl. now rewrite app_nil_r.
  - intros e He. unfold evaluate, bind, invoke. now rewrite He.
  - intros doc e Hd Hz. unfold evaluate. cbv zeta.
    unfold bind at 1, invoke at 1. rewrite Hd.
    unfold bind at 1. unfold _calculate_metrics. cbv zeta.
    unfold bind at 1. unfold _analyze_novelty, bind, invoke.
    now rewrite Hz.
  - intros doc nov log1 e Hd Hn Hc Hz. unfold evaluate. cbv zeta.
    unfold bind at 1, invoke at 1. rewrite Hd.
    unfold bind at 1. unfold _calculate_metrics. cbv zeta.
    unfold bind at 1. rewrite Hn.
    unfold bind at 1. unfold _analyze_topic_relevance.
    destruct (categories article) as [|k ks]; [congruence |].
    unfold bind, invoke. now rewrite Hz.
  - intros doc nov tr log1 log2 e Hd Hn Ht Hs. unfold evaluate. cbv zeta.
    unfold bind at 1, invoke at 1. rewrite Hd.
    unfold bind at 1. unfold _calculate_metrics. cbv zeta.
    unfold bind at 1. rewrite Hn.
    unfold bind at 1. rewrite Ht.
    unfold bind at 1. unfold _analyze_sentiment, bind, invoke.
    now rewrite Hs.
  - intros ev log' Hrun.
    apply evaluate_ok_inv in Hrun as (doc & m & Hd & Hm & ->).
    apply calculate_metrics_ok_inv in Hm
      as (nov & tr & se & log1 & log2 & Hn & Ht & Hs & ->).
    apply analyze_novelty_ok_inv in Hn as (out & s0 & s2 & Hz & H0 & H2 & -> & _).
    apply analyze_sentiment_ok_inv in Hs as (top & rest & Hsa & -> & _).
    exists doc, out, s0, s2, top, rest.
    cbn [metrics novelty_score sentiment_score topic_relevance_score].
    repeat (split; [assumption || reflexivity |]).
    apply analyze_topic_relevance_ok_inv in Ht
      as [(Hc & -> & _)|(_ & out' & Hz' & Hmax & _)].
    + now left.
    + right. now exists out'.
Qed.

End EvaluatorFacts.

(** ** Novelty: scores are picked by position *)

(** When the classifier answers in the order of the candidate labels, the
    positions 0 and 2 are "breaking news" and "analysis". *)
Lemma novelty_by_position_when_order_kept
    (zero_shot_classifier : string -> list string -> Result ZeroShotOutput)
    (content : string) (log : list Call) (out : ZeroShotOutput)
    (s0 s1 s2 s3 : Q) :
  zero_shot_classifier content novelty_labels = Ok out ->
  zs_labels out = novelty_labels ->
  zs_scores out = [s0; s1; s2; s3] ->
  exists v w,
    fst (_analyze_novelty zero_shot_classifier content log) = Ok v
    /\ Spec.novelty_by_label out = Some w
    /\ v == w.
Proof.
  intros Hout Hlabels Hscores.
  exists (s0 * 0.7 + s2 * 0.3), (0.7 * s0 + 0.3 * s2).
  unfold _analyze_novelty, bind, invoke, lift, ret, Spec.novelty_by_label.
  rewrite Hout, Hlabels, Hscores. simpl.
  repeat split. Lqa.lra.
Qed.

(** C1, evaluated where it breaks.  The classifier ranks "analysis" (0.6)
    before "breaking news" (0.2): [_analyze_novelty] takes positions 0 and
    2 and returns 0.6 * 0.7 + 0.1 * 0.3 = 0.45, while weighting by label
    gives 0.7 * 0.2 + 0.3 * 0.6 = 0.32. *)
Theorem C1_novelty_reads_positions_not_labels :
  exists out v w,
    Fixture.zs_ranked "Rome fell today." novelty_labels = Ok out
    /\ zs_labels out
       = ["analysis"; "breaking news"; "common knowledge"; "opinion"]%string
    /\ fst (_analyze_novelty Fixture.zs_ranked "Rome fell today." []) = Ok v
    /\ v == 0.45
    /\ Spec.novelty_by_label out = Some w
    /\ w == 0.32
    /\ ~ v == w.
Proof.
  eexists. eexists. eexists.
  split; [reflexivity |]. split; [reflexivity |].
  split; [reflexivity |]. split; [reflexivity |].
  split; [reflexivity |]. split; [reflexivity |].
  intro H. discriminate H.
Qed.

(** ** Concrete runs *)

(** Witness of C3: a run of [evaluate] on a short article. *)
Lemma C3_is_worthy_iff_score_reaches_threshold_witness :
  exists ev log',
    evaluate Fixture.nlp_stub Fixture.sentiment_stub Fixture.zs_in_order
      Fixture.np_std6 Fixture.article_plain "id" 0 [] = (Ok ev, log')
    /\ is_worthy ev = Qle_bool 0.7 (overall_score ev)
    /\ (is_worthy ev = true <-> 0.7 <= overall_score ev)
    /\ (overall_score ev == 0.7 -> is_worthy ev = true)
    /\ (overall_score ev < 0.7 -> is_worthy ev = false).
Proof.
  eexists. eexists. split; [vm_compute; reflexivity |].
  eapply (C3_is_worthy_iff_score_reaches_threshold
            Fixture.nlp_stub Fixture.sentiment_stub Fixture.zs_in_order
            Fixture.np_std6 Fixture.article_plain "id" 0 []).
  vm_compute; reflexivity.
Defined.

(** Witness of C6: no category gives 0.5 and no call; two categories give
    the larger of the two scores. *)
Lemma C6_topic_relevance_default_or_maximum_witness :
  _analyze_topic_relevance Fixture.zs_in_order Fixture.article_plain []
  = (Ok 0.5, [])
  /\ exists m,
       _analyze_topic_relevance Fixture.zs_in_order Fixture.article_tagged []
       = (Ok m, [CallZeroShot "Rome fell today." ["history"; "sport"]%string])
       /\ In m [1 # 2; 1 # 3]
       /\ forall s, In s [1 # 2; 1 # 3] -> s <= m.
Proof.
  split.
  - apply (proj1 (C6_topic_relevance_default_or_maximum
                    Fixture.zs_in_order Fixture.article_plain [])).
    reflexivity.
  - apply (proj2 (C6_topic_relevance_default_or_maximum
                    Fixture.zs_in_order Fixture.article_tagged [])
             ltac:(discriminate)
             (mkZeroShotOutput "Rome fell today."
                ["history"; "sport"]%string [1 # 2; 1 # 3])
             eq_refl ltac:(discriminate)).
Defined.

(** Witness of C9: two contents of 516 and 522 characters that share their
    first 512 get the same sentiment outcome. *)
Lemma C9_sentiment_depends_on_first_512_witness :
  slice_to 512 Fixture.content_x = slice_to 512 Fixture.content_y
  /\ Fixture.content_x <> Fixture.content_y
  /\ _analyze_sentiment Fixture.sentiment_stub Fixture.content_x []
     = _analyze_sentiment Fixture.sentiment_stub Fixture.content_y [].
Proof.
  assert (H : slice_to 512 Fixture.content_x = slice_to 512 Fixture.content_y)
    by (vm_compute; reflexivity).
  split; [exact H |]. split.
  - intro E. apply (f_equal String.length) in E. vm_compute in E.
    discriminate E.
  - exact (proj1 (C9_sentiment_depends_on_first_512
                    Fixture.sentiment_stub
                    Fixture.content_x Fixture.content_y [] H)).
Defined.

(** Witness of C4: each handle in turn is out of service, and the run
    stops at its call with its exception. *)
Lemma C4_provider_failure_aborts_evaluation_witness :
  evaluate Fixture.nlp_down Fixture.sentiment_stub Fixture.zs_in_order
    Fixture.np_std6 Fixture.article_tagged "id" 0 []
  = (Raise (ProviderError "nlp down"), [CallNlp "Rome fell today."])
  /\ evaluate Fixture.nlp_stub Fixture.sentiment_stub Fixture.zs_down
       Fixture.np_std6 Fixture.article_tagged "id" 0 []
     = (Raise (ProviderError "zero-shot down"),
        [CallNlp "Rome fell today.";
         CallZeroShot "Rome fell today." novelty_labels])
  /\ evaluate Fixture.nlp_stub Fixture.sentiment_stub Fixture.zs_novelty_only
       Fixture.np_std6 Fixture.article_tagged "id" 0 []
     = (Raise (ProviderError "zero-shot down"),
        [CallNlp "Rome fell today.";
         CallZeroShot "Rome fell today." novelty_labels;
         CallZeroShot "Rome fell today." ["history"; "sport"]%string])
  /\ evaluate Fixture.nlp_stub Fixture.sentiment_down Fixture.zs_in_order
       Fixture.np_std6 Fixture.article_tagged "id" 0 []
     = (Raise (ProviderError "sentiment down"),
        [CallNlp "Rome fell today.";
         CallZeroShot "Rome fell today." novelty_labels;
         CallZeroShot "Rome fell today." ["history"; "sport"]%string;
         CallSentiment "Rome fell today."])
  /\ exists ev log',
       evaluate Fixture.nlp_stub Fixture.sentiment_stub Fixture.zs_in_order
         Fixture.np_std6 Fixture.article_plain "id" 0 [] = (Ok ev, log')
       /\ exists doc out s0 s2 top rest,
            Fixture.nlp_stub "Rome fell today." = Ok doc
            /\ Fixture.zs_in_order "Rome fell today." novelty_labels = Ok out
            /\ index (zs_scores out) 0 = Ok s0
            /\ index (zs_scores out) 2 = Ok s2
            /\ novelty_score (metrics ev) = s0 * 0.7 + s2 * 0.3
            /\ Fixture.sentiment_stub "Rome fell today." = Ok (top :: rest)
            /\ sentiment_score (metrics ev) = sent_score top
            /\ ((categories Fixture.article_plain = []
                 /\ topic_relevance_score (metrics ev) = 0.5)
                \/ exists out',
                     Fixture.zs_in_order "Rome fell today."
                       (categories Fixture.article_plain) = Ok out'
                     /\ max_list (zs_scores out')
                        = Ok (topic_relevance_score (metrics ev))).
Proof.
  repeat apply conj.
  - apply (proj1 (proj2 (C4_provider_failure_aborts_evaluation
                           Fixture.nlp_down Fixture.sentiment_stub
                           Fixture.zs_in_order Fixture.np_std6
                           Fixture.article_tagged "id" 0 []))).
    reflexivity.
  - apply (proj1 (proj2 (proj2 (C4_provider_failure_aborts_evaluation
                                  Fixture.nlp_stub Fixture.sentiment_stub
                                  Fixture.zs_down Fixture.np_std6
                                  Fixture.article_tagged "id" 0 [])))
             Fixture.short_doc); reflexivity.
  - apply (proj1 (proj2 (proj2 (proj2
             (C4_provider_failure_aborts_evaluation
                Fixture.nlp_stub Fixture.sentiment_stub
                Fixture.zs_novelty_only Fixture.np_std6
                Fixture.article_tagged "id" 0 []))))
             Fixture.short_doc (340 # 800)
             [CallNlp "Rome fell today.";
              CallZeroShot "Rome fell today." novelty_labels]);
      [reflexivity | reflexivity | discriminate | reflexivity].
  - apply (proj1 (proj2 (proj2 (proj2 (proj2
             (C4_provider_failure_aborts_evaluation
                Fixture.nlp_stub Fixture.sentiment_down
                Fixture.zs_in_order Fixture.np_std6
                Fixture.article_tagged "id" 0 [])))))
             Fixture.short_doc (340 # 800) (1 # 2)
             [CallNlp "Rome fell today.";
              CallZeroShot "Rome fell today." novelty_labels]
             [CallNlp "Rome fell today.";
              CallZeroShot "Rome fell today." novelty_labels;
              CallZeroShot "Rome fell today." ["history"; "sport"]%string]);
      reflexivity.
  - eexists. eexists. split; [vm_compute; reflexivity |].
    eapply (proj2 (proj2 (proj2 (proj2 (proj2
              (C4_provider_failure_aborts_evaluation
                 Fixture.nlp_stub Fixture.sentiment_stub
                 Fixture.zs_in_order Fixture.np_std6
                 Fixture.article_plain "id" 0 [])))))).
    vm_compute; reflexivity.
Defined.

(** C4 as stated fails: on an article whose content is empty, [evaluate]
    raises nothing; it calls the document analyser, the zero-shot
    classifier and the sentiment classifier on the empty text and returns
    an evaluation. *)
Lemma C4_empty_content_is_evaluated :
  exists ev,
    evaluate Fixture.nlp_stub Fixture.sentiment_stub Fixture.zs_in_order
      Fixture.np_std6 Fixture.empty_article "id" 0 []
    = (Ok ev,
       [CallNlp ""; CallZeroShot "" novelty_labels; CallSentiment ""])
    /\ is_worthy ev = false.
Proof. eexists. split; vm_compute; reflexivity. Qed.

(** Mid-range metrics with five entities and a score below the threshold
    trigger no rule: the sequence of reasons is empty. *)
Example reasons_may_be_empty :
  _generate_evaluation_reasons (mkContentMetrics 5 0.5 0.5 0.5 1.0 0.5 0.0) 0.5
  = [].
Proof. reflexivity. Qed.

(** Every trigger at once: the reasons come out in the order of the rules. *)
Example reasons_all_high :
  _generate_evaluation_reasons (mkContentMetrics 2 0.8 0.9 1.0 1.0 0.5 0.0) 0.7
  = ["Low number of named entities"; "High fact density";
     "High novelty content"; "Strong analytical depth";
     "Meets overall quality threshold for further analysis"]%string.
Proof. reflexivity. Qed.

(** * Further properties of the evaluator *)

(** ** Analytical depth and the computed metrics *)

Lemma inject_nat_nonneg (n : nat) : 0 <= inject_Z (Z.of_nat n).
Proof. change 0 with (inject_Z 0). rewrite <- Zle_Qle. lia. Qed.

(** Division by the constant 10, put in a form linear arithmetic reads. *)
Ltac div10 := unfold Qdiv in *; change (/ 10) with (1 # 10) in *.

Lemma analytical_depth_cases (doc : Doc) :
  let n := inject_Z (Z.of_nat (analytical_indicators doc)) in
  (n < 10 /\ _calculate_analytical_depth doc == n / 10)
  \/ (10 <= n /\ _calculate_analytical_depth doc == 1).
Proof.
  cbv zeta. unfold _calculate_analytical_depth, analytical_indicators.
  set (n := inject_Z _). unfold Py.min.
  destruct (Qltb_spec (n / 10) 1.0) as [H|H]; [left | right];
    div10; split; Lqa.lra.
Qed.

(** X1. The analytical depth is the number of indicator tokens divided by
    ten and capped at 1: it lies in [0, 1], it is 1 exactly from ten
    indicators on, and 0 exactly when there is none. *)
Theorem X1_analytical_depth_capped (doc : Doc) :
  0 <= _calculate_analytical_depth doc <= 1
  /\ (_calculate_analytical_depth doc == 1
      <-> (10 <= analytical_indicators doc)%nat)
  /\ (_calculate_analytical_depth doc == 0
      <-> analytical_indicators doc = O).
Proof.
  pose proof (inject_nat_nonneg (analytical_indicators doc)) as Hn.
  assert (H10 : 10 <= inject_Z (Z.of_nat (analytical_indicators doc))
                <-> (10 <= analytical_indicators doc)%nat).
  { change 10 with (inject_Z 10). rewrite <- Zle_Qle. lia. }
  assert (H0 : inject_Z (Z.of_nat (analytical_indicators doc)) == 0
               <-> analytical_indicators doc = O).
  { change 0 with (inject_Z 0). rewrite inject_Z_injective. lia. }
  destruct (analytical_depth_cases doc) as [[H E]|[H E]]; cbv zeta in *;
    rewrite E; div10.
  - split; [split; Lqa.lra |]. split; split; intro G.
    + Lqa.lra.
    + apply H10 in G. Lqa.lra.
    + apply H0. Lqa.lra.
    + apply H0 in G. Lqa.lra.
  - split; [split; Lqa.lra |]. split; split; intro G.
    + now apply H10.
    + reflexivity.
    + Lqa.lra.
    + apply H0 in G. Lqa.lra.
Qed.

Lemma Zfrac_nonneg (a c : Z) :
  (0 <= a)%Z -> (0 < c)%Z -> 0 <= inject_Z a / inject_Z c.
Proof.
  intros Ha Hc. apply Qle_shift_div_l.
  - change 0 with (inject_Z 0). now rewrite <- Zlt_Qlt.
  - rewrite Qmult_0_l. change 0 with (inject_Z 0). now rewrite <- Zle_Qle.
Qed.

Lemma Zfrac_le_num (a c : Z) :
  (0 <= a)%Z -> (0 < c)%Z -> inject_Z a / inject_Z c <= inject_Z a.
Proof.
  intros Ha Hc. apply Qle_shift_div_r.
  - change 0 with (inject_Z 0). now rewrite <- Zlt_Qlt.
  - rewrite <- inject_Z_mult, <- Zle_Qle. nia.
Qed.

Lemma Zfrac_lt_1 (a c : Z) :
  (0 < c)%Z -> (inject_Z a / inject_Z c < 1 <-> (a < c)%Z).
Proof.
  intro Hc.
  assert (Hc' : 0 < inject_Z c)
    by (change 0 with (inject_Z 0); now rewrite <- Zlt_Qlt).
  split; intro H.
  - destruct (Z.lt_ge_cases a c) as [Hlt|Hge]; [exact Hlt |].
    assert (1 <= inject_Z a / inject_Z c).
    { apply Qle_shift_div_l; [exact Hc' |].
      rewrite Qmult_1_l, <- Zle_Qle. exact Hge. }
    Lqa.lra.
  - apply Qlt_shift_div_r; [exact Hc' |].
    rewrite Qmult_1_l, <- Zlt_Qlt. exact H.
Qed.

Lemma readability_le_four_thirds (doc : Doc) :
  _calculate_readability_score doc <= 4 # 3.
Proof.
  rewrite readability_refine. pose proof (avg_len_nonneg doc) as Hn.
  destruct (spec_readability_cases (Spec.avg_len doc)) as [[H E]|[H E]];
    rewrite E; div30; Lqa.lra.
Qed.

Lemma meets_threshold_reason_iff (m : ContentMetrics Q) (overall : Q) :
  In "Meets overall quality threshold for further analysis"%string
     (_generate_evaluation_reasons m overall)
  <-> 0.7 <= overall.
Proof. rewrite reasons_refine. unfold Spec.reasons. reason_membership. Qed.

Lemma meets_threshold_reason_last (m : ContentMetrics Q) (overall : Q) :
  0.7 <= overall ->
  exists front,
    _generate_evaluation_reasons m overall
    = front ++ ["Meets overall quality threshold for further analysis"%string].
Proof.
  intro H. apply Qle_bool_iff in H.
  unfold _generate_evaluation_reasons, WORTHY_THRESHOLD. cbv zeta.
  rewrite H. unfold append at 1. eexists. reflexivity.
Qed.

Section EvaluatorMore.

Variable nlp : string -> Result Doc.
Variable sentiment_analyzer : string -> Result (list SentimentOutput).
Variable zero_shot_classifier : string -> list string -> Result ZeroShotOutput.
Variable np_std : list Q -> Q.

(** X2. The metrics [_calculate_metrics] returns: the entity count is the
    number of entity spans; the fact density is that count over the number
    of tokens plus one, so it is never negative, never above the count,
    and below 1 exactly when there are no more entities than tokens; the
    analytical depth is in [0, 1] and the readability in [0, 4/3]. *)
Theorem X2_metrics_ranges
    (article : Article) (doc : Doc) (named_entities : list Span)
    (log log' : list Call) (m : ContentMetrics Q) :
  _calculate_metrics sentiment_analyzer zero_shot_classifier
    article doc named_entities log = (Ok m, log') ->
  named_entities_count m = Z.of_nat (List.length named_entities)
  /\ fact_density_score m
     == inject_Z (named_entities_count m)
        / inject_Z (Z.of_nat (List.length (tokens doc)) + 1)
  /\ 0 <= fact_density_score m <= inject_Z (named_entities_count m)
  /\ (fact_density_score m < 1
      <-> (List.length named_entities <= List.length (tokens doc))%nat)
  /\ 0 <= analytical_depth_score m <= 1
  /\ 0 <= readability_score m <= 4 # 3.
Proof.
  intro Hrun.
  apply calculate_metrics_ok_inv in Hrun
    as (nov & tr & se & log1 & log2 & _ & _ & _ & ->).
  cbn [named_entities_count fact_density_score analytical_depth_score
       readability_score].
  split; [reflexivity |]. split; [reflexivity |].
  split; [split; [apply Zfrac_nonneg | apply Zfrac_le_num]; lia |].
  split; [rewrite Zfrac_lt_1 by lia; lia |].
  split.
  - destruct (analytical_depth_cases doc) as [[H E]|[H E]]; cbv zeta in *;
      rewrite E; pose proof (inject_nat_nonneg (analytical_indicators doc));
      div10; split; Lqa.lra.
  - split; [apply readability_nonneg | apply readability_le_four_thirds].
Qed.

(** X3. In every evaluation [evaluate] returns, the parts agree with one
    another: the overall score is the aggregate of the metrics carried and
    lies in [0, 1], the identifier and timestamp are the ones drawn for
    the call, and the article is worthy exactly when the list of reasons
    contains the threshold reason, which then comes last. *)
Theorem X3_evaluation_is_coherent
    (article : Article) (uuid : string) (now : Z)
    (log log' : list Call) (ev : ArticleEvaluation) :
  evaluate nlp sentiment_analyzer zero_shot_classifier np_std
    article uuid now log = (Ok ev, log') ->
  overall_score ev = _calculate_overall_score (metrics ev)
  /\ 0 <= overall_score ev <= 1
  /\ reasons ev = _generate_evaluation_reasons (metrics ev) (overall_score ev)
  /\ confidence_score ev
     = _calculate_confidence_score 1 Qminus np_std (metrics ev)
  /\ article_id ev = uuid
  /\ evaluation_timestamp ev = now
  /\ (is_worthy ev = true
      <-> In "Meets overall quality threshold for further analysis"%string
             (reasons ev))
  /\ (is_worthy ev = true ->
      exists front,
        reasons ev
        = front
          ++ ["Meets overall quality threshold for further analysis"%string]).
Proof.
  intro Hrun. apply evaluate_ok_inv in Hrun as (doc & m & _ & _ & ->).
  cbn [overall_score metrics reasons confidence_score article_id
       evaluation_timestamp is_worthy].
  repeat (split; [reflexivity || apply overall_score_bounds |]).
  unfold WORTHY_THRESHOLD. split.
  - rewrite meets_threshold_reason_iff. apply Qle_bool_iff.
  - intro H. apply meets_threshold_reason_last. now apply Qle_bool_iff.
Qed.

(** X4. A successful [evaluate] has called the handles in one fixed order:
    the document analyser on the content, the zero-shot classifier with
    the four novelty labels, the zero-shot classifier with the article's
    categories if it declares any, and the sentiment classifier on the
    first 512 characters; nothing else. *)
Theorem X4_calls_of_a_successful_evaluation
    (article : Article) (uuid : string) (now : Z)
    (log log' : list Call) (ev : ArticleEvaluation) :
  evaluate nlp sentiment_analyzer zero_shot_classifier np_std
    article uuid now log = (Ok ev, log') ->
  log' = log
         ++ [CallNlp (content article);
             CallZeroShot (content article) novelty_labels]
         ++ match categories article with
            | [] => []
            | _ :: _ => [CallZeroShot (content article) (categories article)]
            end
         ++ [CallSentiment (slice_to 512 (content article))].
Proof.
  intro Hrun. apply evaluate_ok_inv in Hrun as (doc & m & _ & Hm & _).
  apply calculate_metrics_ok_inv in Hm
    as (nov & tr & se & log1 & log2 & Hn & Ht & Hs & _).
  apply analyze_novelty_ok_inv in Hn as (_ & _ & _ & _ & _ & _ & _ & ->).
  apply analyze_sentiment_ok_inv in Hs as (_ & _ & _ & _ & ->).
  apply analyze_topic_relevance_ok_inv in Ht
    as [(Hc & _ & ->)|(Hc & _ & _ & _ & ->)].
  - rewrite Hc. now rewrite <- !app_assoc.
  - destruct (categories article); [congruence |]. now rewrite <- !app_assoc.
Qed.

End EvaluatorMore.

(** ** How the overall score responds to the metrics *)

(** Division by the constant 20, put in a form linear arithmetic reads. *)
Ltac div20 := unfold Qdiv in *; change (/ 20) with (1 # 20) in *.

Lemma py_clamp_mono (x y : Q) :
  x <= y -> Py.min 1.0 (Py.max 0.0 x) <= Py.min 1.0 (Py.max 0.0 y).
Proof.
  intro Hxy. rewrite !py_clamp.
  destruct (clamp_cases x) as [[H1 E1]|[[H1 E1]|[H1 E1]]];
    destruct (clamp_cases y) as [[H2 E2]|[[H2 E2]|[H2 E2]]];
    rewrite E1, E2; Lqa.lra.
Qed.

Lemma entities_term_mono (n1 n2 : Z) :
  (n1 <= n2)%Z ->
  Py.min 1.0 (inject_Z n1 / 20) <= Py.min 1.0 (inject_Z n2 / 20).
Proof.
  intro H. rewrite Zle_Qle in H.
  unfold Py.min. by_comparisons; div20; Lqa.lra.
Qed.

Lemma entities_term_saturates (n1 n2 : Z) :
  Z.min 20 n1 = Z.min 20 n2 ->
  Py.min 1.0 (inject_Z n1 / 20) == Py.min 1.0 (inject_Z n2 / 20).
Proof.
  intro H.
  assert (Hcases : (n1 = n2) \/ (20 <= n1 /\ 20 <= n2)%Z) by lia.
  destruct Hcases as [->|[H1 H2]]; [reflexivity |].
  rewrite Zle_Qle in H1, H2. change (inject_Z 20) with 20 in H1, H2.
  unfold Py.min. by_comparisons; div20; Lqa.lra.
Qed.

(** X5. The overall score never decreases when a metric improves: if one
    record has at most the entity count, fact density, novelty, analytical
    depth, readability and topic relevance of another and a sentiment no
    stronger in absolute value, its overall score is at most the other's. *)
Theorem X5_overall_score_monotone (m1 m2 : ContentMetrics Q) :
  (named_entities_count m1 <= named_entities_count m2)%Z ->
  fact_density_score m1 <= fact_density_score m2 ->
  novelty_score m1 <= novelty_score m2 ->
  analytical_depth_score m1 <= analytical_depth_score m2 ->
  readability_score m1 <= readability_score m2 ->
  topic_relevance_score m1 <= topic_relevance_score m2 ->
  Qabs (sentiment_score m1) <= Qabs (sentiment_score m2) ->
  _calculate_overall_score m1 <= _calculate_overall_score m2.
Proof.
  intros Hn Hfd Hnov Had Hr Htr Hs.
  unfold _calculate_overall_score. cbv zeta. apply py_clamp_mono.
  pose proof (entities_term_mono _ _ Hn) as He.
  rewrite <- !py_abs_Qabs in Hs. Lqa.lra.
Qed.

(** Witness of X5: a record and the same record with more entities and a
    stronger, opposite sentiment. *)
Lemma X5_overall_score_monotone_witness :
  _calculate_overall_score (mkContentMetrics 3 0.2 0.4 0.1 0.9 0.5 0.2)
  <= _calculate_overall_score (mkContentMetrics 8 0.2 0.4 0.1 0.9 0.5 (-0.6)).
Proof.
  apply X5_overall_score_monotone; cbn; try apply Qle_refl;
    try discriminate.
Defined.

(** X6. The overall score sees the entity count only up to 20 and the
    sentiment only through its absolute value: two records with the same
    count capped at 20, sentiments of equal strength and otherwise equal
    metrics get the same overall score. *)
Theorem X6_overall_score_saturation_and_sign (m1 m2 : ContentMetrics Q) :
  Z.min 20 (named_entities_count m1) = Z.min 20 (named_entities_count m2) ->
  fact_density_score m1 == fact_density_score m2 ->
  novelty_score m1 == novelty_score m2 ->
  analytical_depth_score m1 == analytical_depth_score m2 ->
  readability_score m1 == readability_score m2 ->
  topic_relevance_score m1 == topic_relevance_score m2 ->
  Qabs (sentiment_score m1) == Qabs (sentiment_score m2) ->
  _calculate_overall_score m1 == _calculate_overall_score m2.
Proof.
  intros Hn Hfd Hnov Had Hr Htr Hs.
  unfold _calculate_overall_score. cbv zeta. rewrite !py_clamp.
  apply clamp_compat.
  pose proof (entities_term_saturates _ _ Hn) as He.
  rewrite <- !py_abs_Qabs in Hs. Lqa.lra.
Qed.

(** Witness of X6: 25 entities and sentiment -0.8 score like 40 entities
    and sentiment 0.8. *)
Lemma X6_overall_score_saturation_and_sign_witness :
  _calculate_overall_score (mkContentMetrics 25 0.2 0.4 0.1 0.9 0.5 (-0.8))
  == _calculate_overall_score (mkContentMetrics 40 0.2 0.4 0.1 0.9 0.5 0.8).
Proof.
  apply X6_overall_score_saturation_and_sign; reflexivity.
Defined.

(** ** Shape of the list of reasons *)

Lemma rule1_length (b : bool) (r : string) :
  (List.length (Spec.rule1 b r) <= 1)%nat.
Proof. destruct b; simpl; lia. Qed.

Lemma rule2_length (h l : bool) (rh rl : string) :
  (List.length (Spec.rule2 h l rh rl) <= 1)%nat.
Proof. destruct h, l; simpl; lia. Qed.

Lemma in_rule1 (b : bool) (r x : string) :
  In x (Spec.rule1 b r) <-> b = true /\ r = x.
Proof. unfold Spec.rule1. destruct b; simpl; intuition discriminate. Qed.

Lemma in_rule2 (h l : bool) (rh rl x : string) :
  In x (Spec.rule2 h l rh rl)
  <-> (h = true /\ rh = x) \/ (h = false /\ l = true /\ rl = x).
Proof. unfold Spec.rule2. destruct h, l; simpl; intuition discriminate. Qed.

Lemma rule1_NoDup (b : bool) (r : string) : NoDup (Spec.rule1 b r).
Proof. destruct b; simpl; repeat constructor. intros []. Qed.

Lemma rule2_NoDup (h l : bool) (rh rl : string) :
  NoDup (Spec.rule2 h l rh rl).
Proof. destruct h, l; simpl; repeat constructor; intros []. Qed.

(** Two rules never yield the same string: the hypotheses say that one
    string equals two different literals. *)
Ltac clash :=
  repeat match goal with
         | H : _ \/ _ |- _ => destruct H as [H|H]
         | H : _ /\ _ |- _ => destruct H as [? H]
         end;
  subst; try discriminate; try congruence.

(** Turns membership in a concatenation of rules into the rules' triggers. *)
Ltac open_rules H :=
  rewrite ?in_app_iff in H;
  repeat first [rewrite in_rule1 in H | rewrite in_rule2 in H].

(** X7. The list of reasons has at most five entries, no entry twice, and
    never both the "high" and the "low" reason about the same metric. *)
Theorem X7_reasons_are_few_distinct_and_consistent
    (m : ContentMetrics Q) (overall : Q) :
  let rs := _generate_evaluation_reasons m overall in
  (List.length rs <= 5)%nat
  /\ NoDup rs
  /\ ~ (In "High fact density"%string rs /\ In "Low fact density"%string rs)
  /\ ~ (In "High novelty content"%string rs
        /\ In "Low novelty content"%string rs)
  /\ ~ (In "Strong analytical depth"%string rs
        /\ In "Lacks analytical depth"%string rs).
Proof.
  cbv zeta. rewrite reasons_refine. unfold Spec.reasons.
  set (r1 := Spec.rule1 _ _). set (r2 := Spec.rule2 _ _ _ _).
  set (r3 := Spec.rule2 _ _ _ _). set (r4 := Spec.rule2 _ _ _ _).
  set (r5 := Spec.rule1 _ _).
  split; [| split; [| repeat split]].
  - rewrite !length_app.
    pose proof (rule1_length _ _ : (List.length r1 <= 1)%nat).
    pose proof (rule2_length _ _ _ _ : (List.length r2 <= 1)%nat).
    pose proof (rule2_length _ _ _ _ : (List.length r3 <= 1)%nat).
    pose proof (rule2_length _ _ _ _ : (List.length r4 <= 1)%nat).
    pose proof (rule1_length _ _ : (List.length r5 <= 1)%nat).
    lia.
  - repeat (apply NoDup_app;
            [apply rule1_NoDup || apply rule2_NoDup | |
             intros x Hx Hy; subst r1 r2 r3 r4 r5;
             open_rules Hx; open_rules Hy; clash]).
    apply rule1_NoDup.
  - intros [Hx Hy]. subst r1 r2 r3 r4 r5.
    open_rules Hx. open_rules Hy. clash.
  - intros [Hx Hy]. subst r1 r2 r3 r4 r5.
    open_rules Hx. open_rules Hy. clash.
  - intros [Hx Hy]. subst r1 r2 r3 r4 r5.
    open_rules Hx. open_rules Hy. clash.
Qed.

(** ** Novelty, and when an evaluation succeeds *)

Section HandlesMore.

Variable nlp : string -> Result Doc.
Variable sentiment_analyzer : string -> Result (list SentimentOutput).
Variable zero_shot_classifier : string -> list string -> Result ZeroShotOutput.
Variable np_std : list Q -> Q.

Lemma analyze_novelty_run
    (content : string) (log : list Call) (out : ZeroShotOutput) :
  zero_shot_classifier content novelty_labels = Ok out ->
  _analyze_novelty zero_shot_classifier content log
  = (match zs_scores out with
     | s0 :: _ :: s2 :: _ => Ok (s0 * 0.7 + s2 * 0.3)
     | _ => Raise IndexError
     end,
     log ++ [CallZeroShot content novelty_labels]).
Proof.
  intro Hout. unfold _analyze_novelty, bind, invoke, lift, ret.
  rewrite Hout. destruct (zs_scores out) as [|s0 [|s1 [|s2 rest]]]; reflexivity.
Qed.

(** X8. Once the classifier has answered, [_analyze_novelty] needs three
    scores: with fewer it raises [IndexError]; with three or more it
    returns a value that lies in [0, 1] whenever the scores do.  Either
    way exactly one call is logged. *)
Theorem X8_novelty_needs_three_scores
    (content : string) (log : list Call) (out : ZeroShotOutput) :
  zero_shot_classifier content novelty_labels = Ok out ->
  ((List.length (zs_scores out) < 3)%nat ->
   _analyze_novelty zero_shot_classifier content log
   = (Raise IndexError, log ++ [CallZeroShot content novelty_labels]))
  /\ ((3 <= List.length (zs_scores out))%nat ->
      exists v,
        _analyze_novelty zero_shot_classifier content log
        = (Ok v, log ++ [CallZeroShot content novelty_labels])
        /\ ((forall s, In s (zs_scores out) -> 0 <= s <= 1) -> 0 <= v <= 1)).
Proof.
  intro Hout. rewrite (analyze_novelty_run _ _ _ Hout).
  destruct (zs_scores out) as [|s0 [|s1 [|s2 rest]]]; simpl; split;
    intro Hlen; try lia; try reflexivity.
  exists (s0 * 0.7 + s2 * 0.3). split; [reflexivity |].
  intro Hrange.
  pose proof (Hrange s0 (or_introl eq_refl)).
  pose proof (Hrange s2 (or_intror (or_intror (or_introl eq_refl)))).
  Lqa.lra.
Qed.

(** X9. [evaluate] returns an evaluation as soon as every handle answers
    with enough: a document, at least three novelty scores, at least one
    score for the declared categories if there are any, and at least one
    sentiment result. *)
Theorem X9_evaluate_succeeds_when_handles_answer
    (article : Article) (uuid : string) (now : Z) (log : list Call)
    (doc : Doc) (out : ZeroShotOutput)
    (top : SentimentOutput) (others : list SentimentOutput) :
  nlp (content article) = Ok doc ->
  zero_shot_classifier (content article) novelty_labels = Ok out ->
  (3 <= List.length (zs_scores out))%nat ->
  (categories article <> [] ->
   exists out',
     zero_shot_classifier (content article) (categories article) = Ok out'
     /\ zs_scores out' <> []) ->
  sentiment_analyzer (slice_to 512 (content article)) = Ok (top :: others) ->
  exists ev log',
    evaluate nlp sentiment_analyzer zero_shot_classifier np_std
      article uuid now log = (Ok ev, log')
    /\ sentiment_score (metrics ev) = sent_score top
    /\ named_entities_count (metrics ev) = Z.of_nat (List.length (ents doc)).
Proof.
  intros Hd Hn Hlen Ht Hs.
  unfold evaluate. cbv zeta. unfold bind at 1, invoke at 1. rewrite Hd.
  unfold bind at 1. unfold _calculate_metrics. cbv zeta.
  unfold bind at 1. rewrite (analyze_novelty_run _ _ _ Hn).
  destruct (zs_scores out) as [|s0 [|s1 [|s2 rest]]]; simpl in Hlen; try lia.
  unfold bind at 1.
  assert (Htopic : exists tr log2,
             _analyze_topic_relevance zero_shot_classifier article
               ((log ++ [CallNlp (content article)])
                ++ [CallZeroShot (content article) novelty_labels])
             = (Ok tr, log2)).
  { unfold _analyze_topic_relevance.
    destruct (categories article) as [|k ks] eqn:Hc.
    - eexists. eexists. reflexivity.
    - destruct Ht as (out' & Hout' & Hne); [discriminate |].
      destruct (max_list_spec _ Hne) as (mx & Hmx & _).
      unfold bind, invoke, lift. rewrite Hout', Hmx.
      eexists. eexists. reflexivity. }
  destruct Htopic as (tr & log2 & ->).
  unfold bind at 1. unfold _analyze_sentiment, bind, invoke, lift, ret.
  rewrite Hs. simpl. eexists. eexists. split; [reflexivity |].
  split; reflexivity.
Qed.

(** X10. When the zero-shot classifier only returns scores in [0, 1],
    every evaluation carries metrics in their domains: novelty and topic
    relevance in [0, 1], a fact density that is not negative, analytical
    depth in [0, 1], readability in [0, 4/3] and an entity count that is
    not negative. *)
Theorem X10_metrics_in_their_domains
    (article : Article) (uuid : string) (now : Z)
    (log log' : list Call) (ev : ArticleEvaluation) :
  (forall text labels out s,
     zero_shot_classifier text labels = Ok out ->
     In s (zs_scores out) -> 0 <= s <= 1) ->
  evaluate nlp sentiment_analyzer zero_shot_classifier np_std
    article uuid now log = (Ok ev, log') ->
  (0 <= named_entities_count (metrics ev))%Z
  /\ 0 <= fact_density_score (metrics ev)
  /\ 0 <= novelty_score (metrics ev) <= 1
  /\ 0 <= analytical_depth_score (metrics ev) <= 1
  /\ 0 <= readability_score (metrics ev) <= 4 # 3
  /\ 0 <= topic_relevance_score (metrics ev) <= 1.
Proof.
  intros Hrange Hrun.
  apply evaluate_ok_inv in Hrun as (doc & m & _ & Hm & ->).
  cbn [metrics].
  apply calculate_metrics_ok_inv in Hm
    as (nov & tr & se & log1 & log2 & Hn & Ht & _ & ->).
  cbn [named_entities_count fact_density_score novelty_score
       analytical_depth_score readability_score topic_relevance_score].
  split; [lia |]. split; [apply Zfrac_nonneg; lia |].
  split; [| split; [| split]].
  - apply analyze_novelty_ok_inv in Hn
      as (out & s0 & s2 & Hout & H0 & H2 & -> & _).
    unfold index in H0, H2.
    destruct (nth_error (zs_scores out) 0) as [a|] eqn:E0; [| discriminate].
    destruct (nth_error (zs_scores out) 2) as [b|] eqn:E2; [| discriminate].
    inversion H0; inversion H2; subst.
    pose proof (Hrange _ _ _ _ Hout (nth_error_In _ _ E0)).
    pose proof (Hrange _ _ _ _ Hout (nth_error_In _ _ E2)).
    Lqa.lra.
  - destruct (analytical_depth_cases doc) as [[H E]|[H E]]; cbv zeta in *;
      rewrite E; pose proof (inject_nat_nonneg (analytical_indicators doc));
      div10; split; Lqa.lra.
  - split; [apply readability_nonneg | apply readability_le_four_thirds].
  - apply analyze_topic_relevance_ok_inv in Ht
      as [(_ & -> & _)|(_ & out & Hout & Hmax & _)].
    + split; Lqa.lra.
    + destruct (zs_scores out) as [|x rest] eqn:Hsc; [discriminate |].
      simpl in Hmax. inversion Hmax; subst.
      apply (Hrange _ _ _ _ Hout). rewrite Hsc.
      apply max_from_spec.
Qed.

End HandlesMore.

(** ** Range of the confidence score *)

Module RealConfidenceRange.
Import Reals Lra RealConfidence.
Local Open Scope R_scope.

(** The mean squared deviation under the square root. *)
Lemma confidence_unfold (m : ContentMetrics R) :
  confidence m
  = 1 - population_standard_deviation
          (fact_density_score m) (novelty_score m)
          (analytical_depth_score m) (topic_relevance_score m).
Proof.
  unfold confidence, _calculate_confidence_score.
  now rewrite RealConfidenceFacts.np_std_four.
Qed.

Lemma variance_zero_iff (a b c d : R) :
  let mu := (a + b + c + d) / 4 in
  ((a - mu) ^ 2 + (b - mu) ^ 2 + (c - mu) ^ 2 + (d - mu) ^ 2) / 4 = 0
  <-> a = b /\ b = c /\ c = d.
Proof.
  cbv zeta. split.
  - intro H. set (mu := (a + b + c + d) / 4) in *.
    assert (Ha : 0 <= (a - mu) ^ 2) by apply pow2_ge_0.
    assert (Hb : 0 <= (b - mu) ^ 2) by apply pow2_ge_0.
    assert (Hc : 0 <= (c - mu) ^ 2) by apply pow2_ge_0.
    assert (Hd : 0 <= (d - mu) ^ 2) by apply pow2_ge_0.
    assert (Ea : (a - mu) ^ 2 = 0) by lra.
    assert (Eb : (b - mu) ^ 2 = 0) by lra.
    assert (Ec : (c - mu) ^ 2 = 0) by lra.
    assert (Ed : (d - mu) ^ 2 = 0) by lra.
    assert (a = mu) by nra. assert (b = mu) by nra.
    assert (c = mu) by nra. assert (d = mu) by nra. lra.
  - intros (-> & -> & ->). field.
Qed.

Lemma variance_nonneg (a b c d : R) :
  let mu := (a + b + c + d) / 4 in
  0 <= ((a - mu) ^ 2 + (b - mu) ^ 2 + (c - mu) ^ 2 + (d - mu) ^ 2) / 4.
Proof.
  cbv zeta. set (mu := (a + b + c + d) / 4).
  pose proof (pow2_ge_0 (a - mu)). pose proof (pow2_ge_0 (b - mu)).
  pose proof (pow2_ge_0 (c - mu)). pose proof (pow2_ge_0 (d - mu)). lra.
Qed.

(** X11. The confidence score never exceeds 1, and it is exactly 1 when
    and only when fact density, novelty, analytical depth and topic
    relevance all have the same value. *)
Theorem X11_confidence_at_most_one (m : ContentMetrics R) :
  confidence m <= 1
  /\ (confidence m = 1
      <-> fact_density_score m = novelty_score m
          /\ novelty_score m = analytical_depth_score m
          /\ analytical_depth_score m = topic_relevance_score m).
Proof.
  rewrite confidence_unfold. unfold population_standard_deviation. cbv zeta.
  set (a := fact_density_score m). set (b := novelty_score m).
  set (c := analytical_depth_score m). set (d := topic_relevance_score m).
  pose proof (variance_nonneg a b c d) as Hv. cbv zeta in Hv.
  pose proof (variance_zero_iff a b c d) as Hz. cbv zeta in Hz.
  set (v := ((a - (a + b + c + d) / 4) ^ 2 + (b - (a + b + c + d) / 4) ^ 2
             + (c - (a + b + c + d) / 4) ^ 2
             + (d - (a + b + c + d) / 4) ^ 2) / 4) in *.
  pose proof (sqrt_pos v) as Hs.
  split; [lra |]. rewrite <- Hz. split; intro H.
  - apply sqrt_eq_0; lra.
  - rewrite H, sqrt_0. lra.
Qed.

(** X12. When the four metrics lie in [0, 1], the confidence score is at
    least 1/2. *)
Theorem X12_confidence_at_least_half (m : ContentMetrics R) :
  0 <= fact_density_score m <= 1 ->
  0 <= novelty_score m <= 1 ->
  0 <= analytical_depth_score m <= 1 ->
  0 <= topic_relevance_score m <= 1 ->
  1 / 2 <= confidence m.
Proof.
  intros Ha Hb Hc Hd.
  rewrite confidence_unfold. unfold population_standard_deviation. cbv zeta.
  set (a := fact_density_score m) in *. set (b := novelty_score m) in *.
  set (c := analytical_depth_score m) in *.
  set (d := topic_relevance_score m) in *.
  set (v := ((a - (a + b + c + d) / 4) ^ 2 + (b - (a + b + c + d) / 4) ^ 2
             + (c - (a + b + c + d) / 4) ^ 2
             + (d - (a + b + c + d) / 4) ^ 2) / 4).
  assert (Hv : v <= (1 / 2) * (1 / 2)).
  { subst v. set (mu := (a + b + c + d) / 4).
    assert (E : ((a - mu) ^ 2 + (b - mu) ^ 2 + (c - mu) ^ 2 + (d - mu) ^ 2) / 4
                = (a * a + b * b + c * c + d * d) / 4 - mu * mu)
      by (subst mu; field).
    rewrite E.
    assert (a * a <= a) by nra. assert (b * b <= b) by nra.
    assert (c * c <= c) by nra. assert (d * d <= d) by nra.
    assert (Hmu : (a * a + b * b + c * c + d * d) / 4 <= mu)
      by (subst mu; lra).
    clearbody mu.
    assert (Hsq : 0 <= (mu - 1 / 2) * (mu - 1 / 2)) by apply Rle_0_sqr.
    lra. }
  assert (Hs : sqrt v <= 1 / 2).
  { rewrite <- (sqrt_square (1 / 2)) by lra. now apply sqrt_le_1_alt. }
  lra.
Qed.

(** Witness of X12: metrics 0, 0, 1, 1 reach the bound. *)
Lemma X12_confidence_at_least_half_witness :
  1 / 2 <= confidence (mkContentMetrics 7 0 0 1 9 1 (-1)).
Proof.
  apply X12_confidence_at_least_half; cbn; lra.
Defined.

End RealConfidenceRange.

(** * The article source client *)

Module WebFacts.
Import Web.
Local Open Scope string_scope.

(** ** [_process_articles] *)

Lemma get_obj (fields : list (string * JSON)) (key : string) (default : JSON) :
  get (JObj fields) key default
  = Returned (match dict_lookup fields key with
              | Some v => v
              | None => default
              end).
Proof. reflexivity. Qed.

Lemma get_not_obj (v : JSON) (key : string) (default : JSON) :
  (forall fields, v <> JObj fields) ->
  get v key default = Raised (AttributeError (type_name v) "get").
Proof. intro H. destruct v; try reflexivity. now destruct (H fields). Qed.

Lemma category_labels_truthy (cats labels : list JSON) :
  category_labels cats = Returned labels ->
  Forall (fun l => truthy l = true) labels
  /\ (List.length labels <= List.length cats)%nat.
Proof.
  revert labels. induction cats as [|cat rest IH]; intros labels H.
  - inversion H. split; [constructor | apply le_n].
  - cbn [category_labels] in H.
    destruct cat; try discriminate H.
    rewrite !get_obj in H. cbn [try_bind] in H.
    destruct (dict_lookup fields "label") as [v|].
    + destruct (truthy v) eqn:Hv.
      * destruct (category_labels rest) as [ls|e]; [| discriminate H].
        cbn [try_bind] in H. inversion H; subst.
        destruct (IH ls eq_refl) as [Hall Hlen].
        split; [now constructor | simpl; lia].
      * destruct (IH labels H) as [Hall Hlen]. split; [exact Hall |].
        simpl. lia.
    + cbn [truthy] in H. destruct (IH labels H) as [Hall Hlen].
      split; [exact Hall | simpl; lia].
Qed.

Section ProcessFacts.

Variable parse : JSON -> Try Z.

Lemma process_loop_spec
    (items : list JSON) (acc out : list ProcessedArticle) :
  process_loop parse items acc = Returned out
  <-> exists new,
        out = (acc ++ new)%list
        /\ Forall2 (fun item p => process_article parse item = Returned p)
                   items new.
Proof.
  revert acc out. induction items as [|item rest IH]; intros acc out.
  - cbn [process_loop]. split.
    + intro H. inversion H. exists []. split; [now rewrite app_nil_r |].
      constructor.
    + intros (new & -> & Hall). inversion Hall. now rewrite app_nil_r.
  - cbn [process_loop]. split.
    + destruct (process_article parse item) as [p|e] eqn:Hp;
        [| discriminate].
      cbn [try_bind]. intro H. apply IH in H as (new & -> & Hall).
      exists (p :: new). split; [now rewrite <- app_assoc |].
      now constructor.
    + intros (new & -> & Hall). inversion Hall as [|? p ? new' Hp Hrest];
        subst. rewrite Hp. cbn [try_bind]. apply IH.
      exists new'. split; [now rewrite <- app_assoc | exact Hrest].
Qed.

(** X13. [_process_articles] treats missing keys as "no articles" and
    wrong shapes as errors: a response dict without "articles", or whose
    "articles" dict has no "results", gives the empty list; a response
    that is not a dict, or whose "articles" is present but not a dict
    (null included), raises [AttributeError]; "results" that is null or a
    number raises [TypeError]. *)
Theorem X13_process_articles_missing_keys_and_wrong_shapes :
  (forall fields,
     dict_lookup fields "articles" = None ->
     _process_articles parse (JObj fields) = Returned [])
  /\ (forall fields inner,
        dict_lookup fields "articles" = Some (JObj inner) ->
        dict_lookup inner "results" = None ->
        _process_articles parse (JObj fields) = Returned [])
  /\ (forall response,
        (forall fields, response <> JObj fields) ->
        _process_articles parse response
        = Raised (AttributeError (type_name response) "get"))
  /\ (forall fields v,
        dict_lookup fields "articles" = Some v ->
        (forall inner, v <> JObj inner) ->
        _process_articles parse (JObj fields)
        = Raised (AttributeError (type_name v) "get"))
  /\ (forall fields inner v,
        dict_lookup fields "articles" = Some (JObj inner) ->
        dict_lookup inner "results" = Some v ->
        v = JNull \/ (exists b, v = JBool b) \/ (exists n, v = JInt n)
        \/ (exists q, v = JFloat q) ->
        _process_articles parse (JObj fields)
        = Raised (TypeError (type_name v))).
Proof.
  unfold _process_articles. repeat apply conj.
  - intros fields H. rewrite get_obj, H. reflexivity.
  - intros fields inner H1 H2. rewrite get_obj, H1. cbn [try_bind].
    rewrite get_obj, H2. reflexivity.
  - intros response H. now rewrite get_not_obj.
  - intros fields v H1 H2. rewrite get_obj, H1. cbn [try_bind].
    now rewrite get_not_obj.
  - intros fields inner v H1 H2 Hv. rewrite get_obj, H1. cbn [try_bind].
    rewrite get_obj, H2. cbn [try_bind].
    destruct Hv as [->|[[b ->]|[[n ->]|[q ->]]]]; reflexivity.
Qed.

(** X14. On a response whose "results" is a list, [_process_articles]
    returns a list exactly when every item can be processed, and then the
    output has one dict per item, in the order of the items, each the
    outcome of processing its item. *)
Theorem X14_process_articles_one_per_item
    (fields inner : list (string * JSON)) (items : list JSON)
    (out : list ProcessedArticle) :
  dict_lookup fields "articles" = Some (JObj inner) ->
  dict_lookup inner "results" = Some (JArr items) ->
  (_process_articles parse (JObj fields) = Returned out
   <-> Forall2 (fun item p => process_article parse item = Returned p)
               items out)
  /\ (_process_articles parse (JObj fields) = Returned out ->
      List.length out = List.length items).
Proof.
  intros H1 H2.
  assert (Hrun : _process_articles parse (JObj fields)
                 = process_loop parse items []).
  { unfold _process_articles. rewrite get_obj, H1. cbn [try_bind].
    rewrite get_obj, H2. reflexivity. }
  rewrite Hrun, process_loop_spec.
  assert (Hiff : (exists new, out = ([] ++ new)%list
                    /\ Forall2 (fun item p =>
                                  process_article parse item = Returned p)
                               items new)
                 <-> Forall2 (fun item p =>
                                process_article parse item = Returned p)
                             items out).
  { split; [intros (new & -> & H); exact H | intro H; now exists out]. }
  split; [exact Hiff |].
  intro H. apply Hiff in H. symmetry. eapply Forall2_length. exact H.
Qed.

(** X15. The categories of a processed article are exactly labels that
    count as true: no empty string, no null, and never more labels than
    the article had categories. *)
Theorem X15_processed_categories_are_truthy
    (article : JSON) (p : ProcessedArticle) :
  process_article parse article = Returned p ->
  Forall (fun label => truthy label = true) (pa_categories p)
  /\ ~ In (JStr "") (pa_categories p)
  /\ ~ In JNull (pa_categories p).
Proof.
  unfold process_article. intro H.
  repeat match type of H with
         | try_bind ?m _ = Returned _ =>
             let E := fresh "E" in
             destruct m eqn:E; [cbn [try_bind] in H | discriminate H]
         end.
  inversion H; subst. cbn [pa_categories].
  match goal with
  | E : category_labels _ = Returned _ |- _ =>
      destruct (category_labels_truthy _ _ E) as [Hall _]
  end.
  split; [exact Hall |].
  rewrite Forall_forall in Hall.
  split; intro Hin; apply Hall in Hin; discriminate Hin.
Qed.

(** X16. For an article dict, a "source" that is present but is not a
    dict (null included) raises [AttributeError], whereas a missing
    "source" defaults; and when "dateTime" is missing the date parser is
    given the empty string, so its refusal becomes the outcome. *)
Theorem X16_process_article_null_source_and_missing_date
    (fields : list (string * JSON)) :
  (forall v,
     dict_lookup fields "source" = Some v ->
     (forall inner, v <> JObj inner) ->
     process_article parse (JObj fields)
     = Raised (AttributeError (type_name v) "get"))
  /\ (forall e,
        dict_lookup fields "source" = None ->
        dict_lookup fields "dateTime" = None ->
        parse (JStr "") = Raised e ->
        process_article parse (JObj fields) = Raised e)
  /\ (forall p,
        dict_lookup fields "source" = None ->
        process_article parse (JObj fields) = Returned p ->
        pa_source p = JStr "").
Proof.
  repeat apply conj.
  - intros v Hs Hv. unfold process_article. rewrite !get_obj.
    cbn [try_bind]. rewrite Hs. now rewrite get_not_obj.
  - intros e Hs Hd Hp. unfold process_article. rewrite !get_obj.
    cbn [try_bind]. rewrite Hs, get_obj. cbn [try_bind dict_lookup].
    rewrite Hd, Hp. reflexivity.
  - intros p Hs. unfold process_article. rewrite !get_obj.
    cbn [try_bind]. rewrite Hs, get_obj. cbn [try_bind dict_lookup].
    intro H.
    repeat match type of H with
           | try_bind ?m _ = Returned _ =>
               let E := fresh "E" in
               destruct m eqn:E; [cbn [try_bind] in H | discriminate H]
           end.
    now inversion H.
Qed.

End ProcessFacts.

(** ** [fetch_articles] *)

Lemma dict_lookup_set_same {V} (d : list (string * V)) (k : string) (v : V) :
  dict_lookup (dict_set d k v) k = Some v.
Proof.
  induction d as [|[k0 w] rest IH]; simpl.
  - now rewrite String.eqb_refl.
  - destruct (String.eqb k0 k) eqn:E; simpl; rewrite E; [reflexivity | exact IH].
Qed.

Lemma dict_lookup_set_other {V} (d : list (string * V)) (k k' : string) (v : V) :
  k <> k' -> dict_lookup (dict_set d k v) k' = dict_lookup d k'.
Proof.
  intro Hne. induction d as [|[k0 w] rest IH]; simpl.
  - apply String.eqb_neq in Hne. now rewrite Hne.
  - destruct (String.eqb k0 k) eqn:E; simpl.
    + apply String.eqb_eq in E. subst k0.
      apply String.eqb_neq in Hne. now rewrite Hne.
    + now rewrite IH.
Qed.

Lemma dict_set_keys {V} (d : list (string * V)) (k : string) (v : V) :
  keys (dict_set d k v)
  = if existsb (String.eqb k) (keys d) then keys d else (keys d ++ [k])%list.
Proof.
  unfold keys. induction d as [|[k0 w] rest IH]; simpl; [reflexivity |].
  rewrite (String.eqb_sym k k0).
  destruct (String.eqb k0 k) eqn:E; simpl; [reflexivity |].
  rewrite IH. now destruct (existsb _ _).
Qed.

Lemma dict_set_NoDup {V} (d : list (string * V)) (k : string) (v : V) :
  NoDup (keys d) -> NoDup (keys (dict_set d k v)).
Proof.
  intro H. rewrite dict_set_keys.
  destruct (existsb (String.eqb k) (keys d)) eqn:E; [exact H |].
  apply NoDup_app; [exact H | repeat constructor; intros [] |].
  intros a Ha [Hk|[]]. subst a.
  assert (existsb (String.eqb k) (keys d) = true); [| congruence].
  apply existsb_exists. exists k. split; [exact Ha | apply String.eqb_refl].
Qed.

Lemma optional_set_NoDup {A} (p : Params) (x : option A) (b : bool)
    (k : string) (f : A -> ParamValue) :
  NoDup (keys p) ->
  NoDup (keys (match x with
               | Some a => if b then dict_set p k (f a) else p
               | None => p
               end)).
Proof.
  intro H. destruct x, b; try exact H; now apply dict_set_NoDup.
Qed.

Lemma given_set_NoDup {A} (p : Params) (x : option A)
    (k : string) (f : A -> ParamValue) :
  NoDup (keys p) ->
  NoDup (keys (match x with
               | Some a => dict_set p k (f a)
               | None => p
               end)).
Proof. intro H. destruct x; [now apply dict_set_NoDup | exact H]. Qed.

Lemma optional_set_lookup_other {A} (p : Params) (x : option A) (b : bool)
    (k k' : string) (f : A -> ParamValue) :
  k <> k' ->
  dict_lookup (match x with
               | Some a => if b then dict_set p k (f a) else p
               | None => p
               end) k'
  = dict_lookup p k'.
Proof.
  intro H. destruct x, b; try reflexivity. now apply dict_lookup_set_other.
Qed.

Lemma given_set_lookup_other {A} (p : Params) (x : option A)
    (k k' : string) (f : A -> ParamValue) :
  k <> k' ->
  dict_lookup (match x with
               | Some a => dict_set p k (f a)
               | None => p
               end) k'
  = dict_lookup p k'.
Proof.
  intro H. destruct x; [now apply dict_lookup_set_other | reflexivity].
Qed.

Lemma optional_set_lookup_same {A} (p : Params) (x : option A) (b : bool)
    (k : string) (f : A -> ParamValue) :
  dict_lookup (match x with
               | Some a => if b then dict_set p k (f a) else p
               | None => p
               end) k
  = match x with
    | Some a => if b then Some (f a) else dict_lookup p k
    | None => dict_lookup p k
    end.
Proof. destruct x, b; try reflexivity. apply dict_lookup_set_same. Qed.

Lemma given_set_lookup_same {A} (p : Params) (x : option A)
    (k : string) (f : A -> ParamValue) :
  dict_lookup (match x with
               | Some a => dict_set p k (f a)
               | None => p
               end) k
  = match x with
    | Some a => Some (f a)
    | None => dict_lookup p k
    end.
Proof. destruct x; [apply dict_lookup_set_same | reflexivity]. Qed.

(** Looks a literal key up through the optional insertions. *)
Ltac through_insertions :=
  repeat first
    [ rewrite optional_set_lookup_other by discriminate
    | rewrite given_set_lookup_other by discriminate
    | rewrite optional_set_lookup_same
    | rewrite given_set_lookup_same ].

Section FetchFacts.

Variable parse : JSON -> Try Z.
Variable strftime_ymd : Z -> string.
Variable session_get : ClientSession -> string -> Params -> Try Response.
Variable builtin_str : Error -> string.

(** X17. The query parameters of [fetch_articles]: no key occurs twice;
    the API key, the article count and the comma-joined languages are
    always there; "q", "categoryUri" and "sourceLocationUri" are there
    exactly when the argument is given and not empty, "dateStart" and
    "dateEnd" exactly when a date is given. *)
Theorem X17_query_parameters
    (self : NewsAPIClient) (query : option string)
    (from_date to_date : option Z) (languages : list string)
    (categories source_locations : option (list string)) (limit : Z) :
  let params :=
    build_params strftime_ymd self query from_date to_date languages
      categories source_locations limit in
  NoDup (keys params)
  /\ dict_lookup params "apiKey" = Some (PStr (api_key (config self)))
  /\ dict_lookup params "articlesCount" = Some (PInt limit)
  /\ dict_lookup params "language" = Some (PStr (join "," languages))
  /\ dict_lookup params "q"
     = match query with
       | Some q => if String.eqb q "" then None else Some (PStr q)
       | None => None
       end
  /\ dict_lookup params "dateStart"
     = option_map (fun d => PStr (strftime_ymd d)) from_date
  /\ dict_lookup params "dateEnd"
     = option_map (fun d => PStr (strftime_ymd d)) to_date
  /\ dict_lookup params "categoryUri"
     = match categories with
       | Some (c :: cs) => Some (PStr (join "," (c :: cs)))
       | _ => None
       end
  /\ dict_lookup params "sourceLocationUri"
     = match source_locations with
       | Some (l :: ls) => Some (PStr (join "," (l :: ls)))
       | _ => None
       end.
Proof.
  cbv zeta. split.
  - unfold build_params. cbv zeta.
    apply (optional_set_NoDup _ _ _ _ (fun ls => PStr (join "," ls))).
    apply (optional_set_NoDup _ _ _ _ (fun cs => PStr (join "," cs))).
    apply (given_set_NoDup _ _ _ (fun d => PStr (strftime_ymd d))).
    apply (given_set_NoDup _ _ _ (fun d => PStr (strftime_ymd d))).
    apply (optional_set_NoDup _ _ _ _ PStr).
    cbn [keys map fst]. repeat constructor; simpl; intuition discriminate.
  - unfold build_params. cbv zeta.
    repeat split; through_insertions; try reflexivity.
    + now destruct query as [[|ch q]|].
    + now destruct categories as [[|c cs]|].
    + now destruct source_locations as [[|l ls]|].
Qed.

(** X18. [fetch_articles] sends at most one request, and none when the
    session was never opened; whatever goes wrong, what it raises is an
    [Exception] whose message starts with "Error fetching articles from
    NewsAPI: ". *)
Theorem X18_fetch_failures_are_wrapped
    (self : NewsAPIClient) (query : option string)
    (from_date to_date : option Z) (languages : list string)
    (categories source_locations : option (list string)) (limit : Z) :
  let run :=
    fetch_articles parse strftime_ymd session_get builtin_str self query
      from_date to_date languages categories source_locations limit in
  (forall e,
     fst run = Raised e ->
     exists cause,
       e = Exception_ ("Error fetching articles from NewsAPI: " ++ cause))
  /\ (session self = None ->
      snd run = []
      /\ fst run
         = Raised (Exception_
                     ("Error fetching articles from NewsAPI: "
                      ++ builtin_str (AttributeError "NoneType" "get"))))
  /\ (forall s,
        session self = Some s ->
        snd run
        = [mkRequest s (endpoint (config self))
             (build_params strftime_ymd self query from_date to_date
                languages categories source_locations limit)]).
Proof.
  cbv zeta. unfold fetch_articles, fetch_attempt. cbv zeta.
  destruct (session self) as [s|].
  - set (attempt := try_bind _ _). repeat apply conj.
    + intros e. destruct attempt as [a|e0]; simpl; intro H;
        [discriminate H | inversion H; eexists; reflexivity].
    + discriminate.
    + intros s' H. inversion H; subst. now destruct attempt.
  - repeat apply conj.
    + intros e H. simpl in H. inversion H. eexists. reflexivity.
    + intros _. split; reflexivity.
    + discriminate.
Qed.

(** X19. With an open session and an answer from the server: a status
    other than 200 makes [fetch_articles] raise "Error fetching articles
    from NewsAPI: NewsAPI request failed: " followed by the response text,
    without looking at the JSON body; a status of 200 hands the decoded
    body to [_process_articles] and returns its list. *)
Theorem X19_fetch_by_status
    (self : NewsAPIClient) (s : ClientSession) (response : Response)
    (query : option string)
    (from_date to_date : option Z) (languages : list string)
    (categories source_locations : option (list string)) (limit : Z) :
  session self = Some s ->
  session_get s (endpoint (config self))
    (build_params strftime_ymd self query from_date to_date languages
       categories source_locations limit) = Returned response ->
  let run :=
    fetch_articles parse strftime_ymd session_get builtin_str self query
      from_date to_date languages categories source_locations limit in
  (forall body,
     status response <> 200%Z ->
     text response = Returned body ->
     fst run
     = Raised (Exception_
                 ("Error fetching articles from NewsAPI: "
                  ++ "NewsAPI request failed: " ++ body)))
  /\ (forall data articles,
        status response = 200%Z ->
        json response = Returned data ->
        _process_articles parse data = Returned articles ->
        fst run = Returned articles)
  /\ (forall data e,
        status response = 200%Z ->
        json response = Returned data ->
        _process_articles parse data = Raised e ->
        fst run
        = Raised (Exception_
                    ("Error fetching articles from NewsAPI: "
                     ++ str builtin_str e))).
Proof.
  intros Hs Hget. cbv zeta. unfold fetch_articles, fetch_attempt. cbv zeta.
  rewrite Hs, Hget. cbn [try_bind]. repeat apply conj.
  - intros body Hst Hbody. apply Z.eqb_neq in Hst. rewrite Hst, Hbody.
    reflexivity.
  - intros data articles Hst Hj Hp. rewrite Hst, Hj. cbn. now rewrite Hp.
  - intros data e Hst Hj Hp. rewrite Hst, Hj. cbn. now rewrite Hp.
Qed.

End FetchFacts.

(** ** [fetch_and_evaluate_articles] *)

Lemma blind_ret {A} (a : A) : log_blind (ret a).
Proof. intros l1 l2. reflexivity. Qed.

Lemma blind_lift {A} (r : Result A) : log_blind (lift r).
Proof. intros l1 l2. reflexivity. Qed.

Lemma blind_invoke {A} (c : Call) (r : Result A) : log_blind (invoke c r).
Proof. intros l1 l2. reflexivity. Qed.

Lemma blind_bind {A B} (m : Eval A) (k : A -> Eval B) :
  log_blind m -> (forall a, log_blind (k a)) -> log_blind (bind m k).
Proof.
  intros Hm Hk l1 l2. unfold bind. specialize (Hm l1 l2).
  destruct (m l1) as [[a1|e1] l1'], (m l2) as [[a2|e2] l2'];
    simpl in Hm; inversion Hm; subst; [apply Hk | reflexivity].
Qed.

Section MainFacts.

Variable parse : JSON -> Try Z.
Variable strftime_ymd : Z -> string.
Variable session_get : ClientSession -> string -> Params -> Try Response.
Variable builtin_str : Error -> string.
Variable nlp : string -> Result Doc.
Variable sentiment_analyzer : string -> Result (list SentimentOutput).
Variable zero_shot_classifier : string -> list string -> Result ZeroShotOutput.
Variable np_std : list Q -> Q.
Variable make_article : ProcessedArticle -> Try Article.
Variable uuid4 : nat -> string.
Variable utcnow : nat -> Z.
Variable settings : Settings.

Lemma calculate_metrics_blind
    (article : Article) (doc : Doc) (named_entities : list Span) :
  log_blind (_calculate_metrics sentiment_analyzer zero_shot_classifier
               article doc named_entities).
Proof.
  unfold _calculate_metrics, _analyze_novelty, _analyze_topic_relevance,
    _analyze_sentiment.
  destruct (categories article);
    repeat first [ apply blind_bind; [| intro]
                 | apply blind_invoke | apply blind_lift | apply blind_ret ].
Qed.

Lemma evaluate_fst
    (article : Article) (uuid : string) (now : Z) (log : list Call) :
  fst (evaluate nlp sentiment_analyzer zero_shot_classifier np_std
         article uuid now log)
  = match nlp (content article) with
    | Raise e => Raise e
    | Ok doc =>
        match fst (_calculate_metrics sentiment_analyzer zero_shot_classifier
                     article doc (ents doc) []) with
        | Raise e => Raise e
        | Ok m =>
            Ok (mkArticleEvaluation uuid
                  (_calculate_overall_score m)
                  (Qle_bool WORTHY_THRESHOLD (_calculate_overall_score m))
                  m now
                  (_calculate_confidence_score 1%Q Qminus np_std m)
                  (_generate_evaluation_reasons m
                     (_calculate_overall_score m)))
        end
    end.
Proof.
  unfold evaluate. cbv zeta. unfold bind at 1. unfold invoke at 1.
  destruct (nlp (content article)) as [doc|e]; [| reflexivity].
  rewrite (calculate_metrics_blind article doc (ents doc) []
             (log ++ [CallNlp (content article)])%list).
  unfold bind at 1.
  destruct (_calculate_metrics _ _ _ _ _ _) as [[m|e] l]; reflexivity.
Qed.

(** What a run of [evaluate] returns, whatever the identifier, the time
    and the log: the same exception, or an evaluation with the same
    worthiness, which is the comparison of its score with the threshold. *)
Lemma evaluate_any_run
    (article : Article) (uuid : string) (now : Z) (log : list Call) :
  match fst (evaluate nlp sentiment_analyzer zero_shot_classifier np_std
               article uuid now log),
        fst (evaluate nlp sentiment_analyzer zero_shot_classifier np_std
               article "" 0 []) with
  | Ok ev, Ok ev0 =>
      is_worthy ev = is_worthy ev0
      /\ (is_worthy ev = true -> (0.7 <= overall_score ev)%Q)
  | Raise e, Raise e0 => e = e0
  | _, _ => False
  end.
Proof.
  rewrite !evaluate_fst.
  destruct (nlp (content article)) as [doc|e]; [| reflexivity].
  destruct (fst (_calculate_metrics _ _ _ _ _ _)) as [m|e]; [| reflexivity].
  cbn. split; [reflexivity |]. unfold WORTHY_THRESHOLD.
  intro H. now apply Qle_bool_iff.
Qed.

Lemma evaluate_each_spec
    (articles : list ProcessedArticle) (k : nat)
    (acc : list WorthyArticle) (log : list Call) :
  match evaluate_each nlp sentiment_analyzer zero_shot_classifier np_std
          make_article uuid4 utcnow articles k acc log with
  | (Returned out, _) =>
      forallb (can_be_evaluated nlp sentiment_analyzer zero_shot_classifier
                 np_std make_article) articles = true
      /\ exists new,
           out = (acc ++ new)%list
           /\ map wa_article new
              = filter (is_worthy_article nlp sentiment_analyzer
                          zero_shot_classifier np_std make_article) articles
           /\ Forall (fun w =>
                        is_worthy (wa_evaluation w) = true
                        /\ (0.7 <= overall_score (wa_evaluation w))%Q) new
  | (Raised e, _) =>
      forallb (can_be_evaluated nlp sentiment_analyzer zero_shot_classifier
                 np_std make_article) articles = false
      /\ exists article_data,
           In article_data articles
           /\ evaluation_of nlp sentiment_analyzer zero_shot_classifier
                np_std make_article article_data = Raised e
  end.
Proof.
  revert k acc log.
  induction articles as [|d rest IH]; intros k acc log.
  - cbn. split; [reflexivity |]. exists []. rewrite app_nil_r.
    repeat split. constructor.
  - cbn [evaluate_each forallb filter].
    unfold can_be_evaluated at 1 3, is_worthy_article at 1, evaluation_of.
    destruct (make_article d) as [article|e] eqn:Hd.
    + pose proof (evaluate_any_run article (uuid4 k) (utcnow k) log) as Hrun.
      destruct (evaluate _ _ _ _ article (uuid4 k) (utcnow k) log)
        as [[ev|e] log1]; cbn [fst] in Hrun;
        destruct (fst (evaluate _ _ _ _ article "" 0%Z [])) as [ev0|e0]
          eqn:E0; try contradiction.
      * destruct Hrun as [Hw Hscore]. rewrite <- Hw.
        specialize (IH (S k)
                      (if is_worthy ev
                       then (acc ++ [mkWorthyArticle d ev])%list else acc)
                      log1).
        destruct (evaluate_each _ _ _ _ _ _ _ rest (S k) _ log1)
          as [[out|e] log2].
        -- destruct IH as (Hall & new & -> & Hmap & Hworthy).
           split; [exact Hall |].
           destruct (is_worthy ev) eqn:Hev.
           ++ exists (mkWorthyArticle d ev :: new).
              rewrite <- app_assoc. cbn. rewrite Hmap.
              repeat split. constructor; [| exact Hworthy].
              cbn. split; [exact Hev | now apply Hscore].
           ++ exists new. repeat split; assumption.
        -- destruct IH as (Hall & bad & Hin & Hbad).
           split; [exact Hall |]. exists bad. split; [now right | exact Hbad].
      * subst e0. split; [reflexivity |]. exists d.
        split; [now left |]. unfold evaluation_of. now rewrite Hd, E0.
    + split; [reflexivity |]. exists d. split; [now left |].
      unfold evaluation_of. now rewrite Hd.
Qed.

(** X20. What [fetch_and_evaluate_articles] answers: "total_articles"
    counts the fetched articles, "worthy_articles" counts the results and
    never exceeds the total, the results are exactly the fetched articles
    that are found worthy, in the order fetched, and each carries an
    evaluation flagged worthy with an overall score of at least 0.7. *)
Theorem X20_response_lists_the_worthy_articles
    (request : FetchArticlesRequest) (news_client : NewsAPIClient)
    (log log' : list Call) (sent : list Request)
    (response : FetchAndEvaluateResponse) :
  fetch_and_evaluate_articles parse strftime_ymd session_get builtin_str
    nlp sentiment_analyzer zero_shot_classifier np_std make_article
    uuid4 utcnow settings request news_client log
  = (Respond response, log', sent) ->
  exists articles,
    fetch_for parse strftime_ymd session_get builtin_str settings
      request news_client = (Returned articles, sent)
    /\ total_articles response = List.length articles
    /\ worthy_articles response = List.length (results response)
    /\ (worthy_articles response <= total_articles response)%nat
    /\ map wa_article (results response)
       = filter (is_worthy_article nlp sentiment_analyzer
                   zero_shot_classifier np_std make_article) articles
    /\ Forall (fun w =>
                 is_worthy (wa_evaluation w) = true
                 /\ (0.7 <= overall_score (wa_evaluation w))%Q)
              (results response).
Proof.
  unfold fetch_and_evaluate_articles. cbv zeta.
  destruct (fetch_for _ _ _ _ _ request news_client)
    as [[articles|e] sent0]; [| discriminate].
  pose proof (evaluate_each_spec articles 0 [] log) as Hspec.
  destruct (evaluate_each _ _ _ _ _ _ _ articles 0 [] log)
    as [[out|e] log1]; [| discriminate].
  intro H. inversion H; subst. exists articles.
  destruct Hspec as (_ & new & Hout & Hmap & Hall). cbn in Hout. subst new.
  cbn [total_articles worthy_articles results].
  repeat split; try assumption.
  rewrite <- (length_map wa_article), Hmap. apply filter_length_le.
Qed.

(** X21. [fetch_and_evaluate_articles] answers all or nothing: if the
    fetch raises, the outcome is a 500 carrying the message and no NLP
    handle is called; if the fetch returns, there is a response exactly
    when every fetched article validates and evaluates, and otherwise a
    500 carrying the message of an article that does not; no other status
    code is ever used. *)
Theorem X21_all_or_nothing
    (request : FetchArticlesRequest) (news_client : NewsAPIClient)
    (log : list Call) :
  let run :=
    fetch_and_evaluate_articles parse strftime_ymd session_get builtin_str
      nlp sentiment_analyzer zero_shot_classifier np_std make_article
      uuid4 utcnow settings request news_client log in
  let fetched :=
    fetch_for parse strftime_ymd session_get builtin_str settings
      request news_client in
  (forall e,
     fst fetched = Raised e ->
     run = (HTTPException 500 (str builtin_str e), log, snd fetched))
  /\ (forall articles,
        fst fetched = Returned articles ->
        ((exists response log', run = (Respond response, log', snd fetched))
         <-> forallb (can_be_evaluated nlp sentiment_analyzer
                        zero_shot_classifier np_std make_article) articles
             = true))
  /\ (forall articles code detail log',
        fst fetched = Returned articles ->
        run = (HTTPException code detail, log', snd fetched) ->
        exists article_data e,
          In article_data articles
          /\ evaluation_of nlp sentiment_analyzer zero_shot_classifier
               np_std make_article article_data = Raised e
          /\ detail = str builtin_str e)
  /\ (forall code detail log' sent,
        run = (HTTPException code detail, log', sent) -> code = 500%Z).
Proof.
  cbv zeta. unfold fetch_and_evaluate_articles. cbv zeta.
  destruct (fetch_for _ _ _ _ _ request news_client)
    as [[articles|e] sent0]; cbn [fst snd].
  - pose proof (evaluate_each_spec articles 0 [] log) as Hspec.
    destruct (evaluate_each _ _ _ _ _ _ _ articles 0 [] log)
      as [[out|e] log1].
    + destruct Hspec as (Hall & _). repeat apply conj.
      * discriminate.
      * intros ? H. inversion H; subst. split; [intros _; exact Hall |].
        intros _. eexists. eexists. reflexivity.
      * discriminate.
      * discriminate.
    + destruct Hspec as (Hall & bad & Hin & Hbad). repeat apply conj.
      * discriminate.
      * intros ? H. inversion H; subst. split.
        -- intros (? & ? & Habs). discriminate Habs.
        -- congruence.
      * intros ? code detail log' H Hrun. inversion H; subst.
        inversion Hrun; subst. exists bad, e. repeat split; assumption.
      * intros code detail log' sent H. now inversion H.
  - repeat apply conj.
    + intros e0 H. now inversion H.
    + discriminate.
    + discriminate.
    + intros code detail log' sent H. now inversion H.
Qed.

(** X22. Through the client that [get_news_api_client] provides, the
    endpoint sends exactly one request, to the configured endpoint, with
    the configured API key and with "articlesCount" set to the request's
    limit, or to the configured limit when the request gives none or
    gives 0. *)
Theorem X22_request_sent_by_the_endpoint
    (request : FetchArticlesRequest) (s : ClientSession) (log : list Call) :
  exists params,
    snd (fetch_and_evaluate_articles parse strftime_ymd session_get
           builtin_str nlp sentiment_analyzer zero_shot_classifier np_std
           make_article uuid4 utcnow settings request
           (get_news_api_client settings s) log)
    = [mkRequest s (newsapi_endpoint settings) params]
    /\ dict_lookup params "apiKey" = Some (PStr (newsapi_key settings))
    /\ dict_lookup params "articlesCount"
       = Some (PInt (match fr_limit request with
                     | Some 0%Z | None => articles_limit settings
                     | Some n => n
                     end)).
Proof.
  eexists. split.
  - unfold fetch_and_evaluate_articles. cbv zeta.
    unfold fetch_for, fetch_articles, fetch_attempt. cbv zeta.
    cbn [get_news_api_client session config endpoint].
    set (attempt := try_bind _ _).
    destruct attempt as [articles|e]; cbn [snd fst].
    + destruct (evaluate_each _ _ _ _ _ _ _ articles 0 [] log)
        as [[out|e] log1]; reflexivity.
    + reflexivity.
  - unfold build_params. cbv zeta. split; through_insertions.
    + reflexivity.
    + cbn. unfold or_int. destruct (fr_limit request) as [[|p|p]|];
        reflexivity.
Qed.

End MainFacts.

End WebFacts.

(** * Concrete runs of the further properties *)

(** Witness of X2 on the three-word document with one entity. *)
Lemma X2_metrics_ranges_witness :
  exists m log',
    _calculate_metrics Fixture.sentiment_stub Fixture.zs_in_order
      Fixture.article_plain Fixture.short_doc (ents Fixture.short_doc) []
    = (Ok m, log')
    /\ fact_density_score m == 1 # 5
    /\ fact_density_score m < 1
    /\ 0 <= readability_score m <= 4 # 3.
Proof.
  eexists. eexists. split; [vm_compute; reflexivity |].
  edestruct (X2_metrics_ranges Fixture.sentiment_stub Fixture.zs_in_order
               Fixture.article_plain Fixture.short_doc
               (ents Fixture.short_doc) [])
    as (_ & Hfd & _ & Hlt & _ & Hr); [vm_compute; reflexivity |].
  split; [exact Hfd |]. split; [| exact Hr].
  apply Hlt. vm_compute. lia.
Defined.

(** Witness of X3 on a short article: not worthy, no threshold reason. *)
Lemma X3_evaluation_is_coherent_witness :
  exists ev log',
    evaluate Fixture.nlp_stub Fixture.sentiment_stub Fixture.zs_in_order
      Fixture.np_std6 Fixture.article_tagged "id" 7 [] = (Ok ev, log')
    /\ 0 <= overall_score ev <= 1
    /\ article_id ev = "id"%string
    /\ evaluation_timestamp ev = 7%Z
    /\ (is_worthy ev = true
        <-> In "Meets overall quality threshold for further analysis"%string
               (reasons ev)).
Proof.
  eexists. eexists. split; [vm_compute; reflexivity |].
  edestruct (X3_evaluation_is_coherent Fixture.nlp_stub
               Fixture.sentiment_stub Fixture.zs_in_order Fixture.np_std6
               Fixture.article_tagged "id" 7 [])
    as (_ & Hrange & _ & _ & Hid & Hts & Hw & _); [vm_compute; reflexivity |].
  repeat split; try apply Hrange; try apply Hw; assumption.
Defined.

(** Witness of X4: four calls for an article with categories. *)
Lemma X4_calls_of_a_successful_evaluation_witness :
  exists ev,
    evaluate Fixture.nlp_stub Fixture.sentiment_stub Fixture.zs_in_order
      Fixture.np_std6 Fixture.article_tagged "id" 7 []
    = (Ok ev,
       [CallNlp "Rome fell today.";
        CallZeroShot "Rome fell today." novelty_labels;
        CallZeroShot "Rome fell today." ["history"; "sport"]%string;
        CallSentiment "Rome fell today."]).
Proof.
  eexists.
  assert (Hrun : exists log',
             evaluate Fixture.nlp_stub Fixture.sentiment_stub
               Fixture.zs_in_order Fixture.np_std6 Fixture.article_tagged
               "id" 7 [] = (Ok _, log'))
    by (eexists; vm_compute; reflexivity).
  destruct Hrun as [log' Hrun].
  rewrite Hrun. f_equal.
  exact (X4_calls_of_a_successful_evaluation _ _ _ _ _ _ _ _ _ _ Hrun).
Defined.

(** Witness of X8: two scores raise, four scores in [0, 1] give 0.425. *)
Lemma X8_novelty_needs_three_scores_witness :
  _analyze_novelty Sample.zs_two "x" []
  = (Raise IndexError, [CallZeroShot "x" novelty_labels])
  /\ exists v,
       _analyze_novelty Sample.zs_sure "x" []
       = (Ok v, [CallZeroShot "x" novelty_labels])
       /\ 0 <= v <= 1.
Proof.
  split.
  - apply (proj1 (X8_novelty_needs_three_scores Sample.zs_two "x" []
                    _ eq_refl)).
    vm_compute. lia.
  - destruct (proj2 (X8_novelty_needs_three_scores Sample.zs_sure "x" []
                       _ eq_refl)) as (v & Hv & Hrange).
    + vm_compute. lia.
    + exists v. split; [exact Hv |]. apply Hrange.
      intros s Hs. cbn in Hs.
      repeat (destruct Hs as [<-|Hs]; [split; discriminate |]).
      destruct Hs.
Defined.

(** Witness of X9: every handle answers, an evaluation comes back. *)
Lemma X9_evaluate_succeeds_when_handles_answer_witness :
  exists ev log',
    evaluate Fixture.nlp_stub Fixture.sentiment_stub Fixture.zs_in_order
      Fixture.np_std6 Fixture.article_tagged "id" 7 [] = (Ok ev, log')
    /\ sentiment_score (metrics ev) = 0.9
    /\ named_entities_count (metrics ev) = 1%Z.
Proof.
  apply (X9_evaluate_succeeds_when_handles_answer
           Fixture.nlp_stub Fixture.sentiment_stub Fixture.zs_in_order
           Fixture.np_std6 Fixture.article_tagged "id" 7 []
           Fixture.short_doc
           (mkZeroShotOutput "Rome fell today." novelty_labels
              [1 # 2; 1 # 3; 1 # 4; 1 # 5])
           (mkSentimentOutput "NEGATIVE" 0.9) []).
  - reflexivity.
  - reflexivity.
  - vm_compute. lia.
  - intros _. eexists. split; [reflexivity | discriminate].
  - reflexivity.
Defined.

(** Witness of X10 with a classifier whose scores are all 1. *)
Lemma X10_metrics_in_their_domains_witness :
  exists ev log',
    evaluate Sample.nlp_by_text Fixture.sentiment_stub Sample.zs_sure
      Fixture.np_std6 Fixture.article_tagged "id" 7 [] = (Ok ev, log')
    /\ 0 <= novelty_score (metrics ev) <= 1
    /\ 0 <= topic_relevance_score (metrics ev) <= 1.
Proof.
  eexists. eexists. split; [vm_compute; reflexivity |].
  edestruct (X10_metrics_in_their_domains Sample.nlp_by_text
               Fixture.sentiment_stub Sample.zs_sure Fixture.np_std6
               Fixture.article_tagged "id" 7 [])
    as (_ & _ & Hn & _ & _ & Ht).
  - intros text labels out s Hout Hs. unfold Sample.zs_sure in Hout.
    inversion Hout; subst. cbn in Hs. apply in_map_iff in Hs as (? & <- & _).
    split; discriminate.
  - vm_compute. reflexivity.
  - split; assumption.
Defined.

(** Witness of X13: an empty response, a response without results, a list
    as response, a null "articles" and a null "results". *)
Lemma X13_process_articles_missing_keys_and_wrong_shapes_witness :
  Web._process_articles Sample.parse_stub (Web.JObj []) = Web.Returned []
  /\ Web._process_articles Sample.parse_stub
       (Web.JObj [("articles"%string, Web.JObj [])]) = Web.Returned []
  /\ Web._process_articles Sample.parse_stub (Web.JArr [])
     = Web.Raised (Web.AttributeError "list" "get")
  /\ Web._process_articles Sample.parse_stub
       (Web.JObj [("articles"%string, Web.JNull)])
     = Web.Raised (Web.AttributeError "NoneType" "get")
  /\ Web._process_articles Sample.parse_stub
       (Web.JObj [("articles"%string,
                   Web.JObj [("results"%string, Web.JNull)])])
     = Web.Raised (Web.TypeError "NoneType").
Proof.
  destruct (WebFacts.X13_process_articles_missing_keys_and_wrong_shapes
              Sample.parse_stub) as (H1 & H2 & H3 & H4 & H5).
  repeat apply conj.
  - apply H1. reflexivity.
  - apply (H2 _ []); reflexivity.
  - apply (H3 (Web.JArr [])). discriminate.
  - apply (H4 _ Web.JNull); [reflexivity | discriminate].
  - apply (H5 _ [("results"%string, Web.JNull)] Web.JNull);
      [reflexivity | reflexivity | now left].
Defined.

(** Witness of X14: two items in, two dicts out. *)
Lemma X14_process_articles_one_per_item_witness :
  exists out,
    Web._process_articles Sample.parse_stub Sample.api_response_two
    = Web.Returned out
    /\ List.length out = 2%nat.
Proof.
  eexists. split; [vm_compute; reflexivity |].
  refine (proj2 (WebFacts.X14_process_articles_one_per_item
                   Sample.parse_stub
                   [("articles"%string,
                     Web.JObj
                       [("results"%string,
                         Web.JArr
                           [Sample.raw_article "One" "Rome fell today.";
                            Sample.raw_article "Two" "Nothing happened."])])]
                   [("results"%string,
                     Web.JArr
                       [Sample.raw_article "One" "Rome fell today.";
                        Sample.raw_article "Two" "Nothing happened."])]
                   [Sample.raw_article "One" "Rome fell today.";
                    Sample.raw_article "Two" "Nothing happened."]
                   _ eq_refl eq_refl) _).
  vm_compute. reflexivity.
Defined.

(** Witness of X15: of four categories, the two with a non-empty label
    are kept. *)
Lemma X15_processed_categories_are_truthy_witness :
  exists p,
    Web.process_article Sample.parse_stub
      (Sample.raw_article "One" "Rome fell today.") = Web.Returned p
    /\ Web.pa_categories p = [Web.JStr "history"; Web.JStr "sport"]
    /\ ~ In (Web.JStr "") (Web.pa_categories p).
Proof.
  eexists. split; [vm_compute; reflexivity |].
  split; [reflexivity |].
  refine (proj1 (proj2 (WebFacts.X15_processed_categories_are_truthy
                          Sample.parse_stub
                          (Sample.raw_article "One" "Rome fell today.")
                          _ _))).
  vm_compute. reflexivity.
Defined.

(** Witness of X16: a null source, a missing date, a missing source. *)
Lemma X16_process_article_null_source_and_missing_date_witness :
  Web.process_article Sample.parse_stub
    (Web.JObj [("source"%string, Web.JNull)])
  = Web.Raised (Web.AttributeError "NoneType" "get")
  /\ Web.process_article Sample.parse_stub (Web.JObj [])
     = Web.Raised (Web.LibraryError "no date")
  /\ exists p,
       Web.process_article Sample.parse_stub
         (Web.JObj [("dateTime"%string, Web.JStr "2023-11-14")])
       = Web.Returned p
       /\ Web.pa_source p = Web.JStr "".
Proof.
  repeat apply conj.
  - apply (proj1 (WebFacts.X16_process_article_null_source_and_missing_date
                    Sample.parse_stub _) Web.JNull);
      [reflexivity | discriminate].
  - apply (proj1 (proj2
             (WebFacts.X16_process_article_null_source_and_missing_date
                Sample.parse_stub _))); reflexivity.
  - eexists. split; [vm_compute; reflexivity |].
    refine (proj2 (proj2
              (WebFacts.X16_process_article_null_source_and_missing_date
                 Sample.parse_stub
                 [("dateTime"%string, Web.JStr "2023-11-14")])) _ eq_refl _).
    vm_compute. reflexivity.
Defined.

(** Witness of X18: a client whose session was never opened sends
    nothing; an open one sends one request. *)
Lemma X18_fetch_failures_are_wrapped_witness :
  Web.fetch_articles Sample.parse_stub Sample.strftime_stub Sample.server_ok
    Sample.builtin_str_stub
    (Web.new_client (Web.mkNewsAPIConfig "KEY" "http://news"))
    None None None ["eng"%string] None None 10
  = (Web.Raised
       (Web.Exception_
          "Error fetching articles from NewsAPI: 'NoneType' object has no attribute 'get'"),
     [])
  /\ List.length
       (snd (Web.fetch_articles Sample.parse_stub Sample.strftime_stub
               Sample.server_refuses Sample.builtin_str_stub
               Sample.client_open None None None ["eng"%string] None None 10))
     = 1%nat.
Proof.
  split.
  - destruct (proj1 (proj2
               (WebFacts.X18_fetch_failures_are_wrapped
                  Sample.parse_stub Sample.strftime_stub Sample.server_ok
                  Sample.builtin_str_stub
                  (Web.new_client (Web.mkNewsAPIConfig "KEY" "http://news"))
                  None None None ["eng"%string] None None 10)) eq_refl)
      as [Hsent Hres].
    apply injective_projections; [exact Hres | exact Hsent].
  - rewrite (proj2 (proj2
               (WebFacts.X18_fetch_failures_are_wrapped
                  Sample.parse_stub Sample.strftime_stub
                  Sample.server_refuses Sample.builtin_str_stub
                  Sample.client_open None None None ["eng"%string]
                  None None 10)) (Web.Session 1) eq_refl).
    reflexivity.
Defined.

(** Witness of X19: a 401 with body "bad key", and a 200 with two
    articles. *)
Lemma X19_fetch_by_status_witness :
  fst (Web.fetch_articles Sample.parse_stub Sample.strftime_stub
         Sample.server_refuses Sample.builtin_str_stub Sample.client_open
         None None None ["eng"%string] None None 10)
  = Web.Raised
      (Web.Exception_
         "Error fetching articles from NewsAPI: NewsAPI request failed: bad key")
  /\ exists articles,
       fst (Web.fetch_articles Sample.parse_stub Sample.strftime_stub
              Sample.server_ok Sample.builtin_str_stub Sample.client_open
              None None None ["eng"%string] None None 10)
       = Web.Returned articles
       /\ List.length articles = 2%nat.
Proof.
  split.
  - apply (proj1 (WebFacts.X19_fetch_by_status
                    Sample.parse_stub Sample.strftime_stub
                    Sample.server_refuses Sample.builtin_str_stub
                    Sample.client_open (Web.Session 1) _
                    None None None ["eng"%string] None None 10
                    eq_refl eq_refl) "bad key"%string);
      [discriminate | reflexivity].
  - eexists. split; [| shelve].
    eapply (proj1 (proj2 (WebFacts.X19_fetch_by_status
                    Sample.parse_stub Sample.strftime_stub
                    Sample.server_ok Sample.builtin_str_stub
                    Sample.client_open (Web.Session 1) _
                    None None None ["eng"%string] None None 10
                    eq_refl eq_refl)) Sample.api_response_two);
      [reflexivity | reflexivity | vm_compute; reflexivity].
    Unshelve. reflexivity.
Defined.

(** Witness of X20: two articles fetched, one of them worthy. *)
Lemma X20_response_lists_the_worthy_articles_witness :
  exists response log' sent,
    Sample.run_endpoint Sample.server_ok Fixture.sentiment_stub
    = (Web.Respond response, log', sent)
    /\ Web.total_articles response = 2%nat
    /\ Web.worthy_articles response = 1%nat
    /\ Forall (fun w =>
                 is_worthy (Web.wa_evaluation w) = true
                 /\ 0.7 <= overall_score (Web.wa_evaluation w))
              (Web.results response).
Proof.
  eexists. eexists. eexists. split; [vm_compute; reflexivity |].
  edestruct (WebFacts.X20_response_lists_the_worthy_articles
               Sample.parse_stub Sample.strftime_stub Sample.server_ok
               Sample.builtin_str_stub Sample.nlp_by_text
               Fixture.sentiment_stub Sample.zs_sure Fixture.np_std6
               Sample.make_article_stub Sample.uuid_stub Sample.utcnow_stub
               Sample.settings_stub Sample.request_rome
               (Web.get_news_api_client Sample.settings_stub (Web.Session 1))
               [])
    as (articles & _ & _ & _ & _ & _ & Hall); [vm_compute; reflexivity |].
  split; [reflexivity |]. split; [reflexivity | exact Hall].
Defined.

(** Witness of X21: a refused fetch gives a 500 and no NLP call; a fetch
    of two articles that evaluate gives a response. *)
Lemma X21_all_or_nothing_witness :
  Sample.run_endpoint Sample.server_refuses Fixture.sentiment_stub
  = (Web.HTTPException 500
       "Error fetching articles from NewsAPI: NewsAPI request failed: bad key",
     [],
     snd (Web.fetch_for Sample.parse_stub Sample.strftime_stub
            Sample.server_refuses Sample.builtin_str_stub
            Sample.settings_stub Sample.request_rome
            (Web.get_news_api_client Sample.settings_stub (Web.Session 1))))
  /\ exists response log',
       Sample.run_endpoint Sample.server_ok Fixture.sentiment_stub
       = (Web.Respond response, log',
          snd (Web.fetch_for Sample.parse_stub Sample.strftime_stub
                 Sample.server_ok Sample.builtin_str_stub
                 Sample.settings_stub Sample.request_rome
                 (Web.get_news_api_client Sample.settings_stub
                    (Web.Session 1)))).
Proof.
  unfold Sample.run_endpoint. split.
  - apply (proj1 (WebFacts.X21_all_or_nothing
                    Sample.parse_stub Sample.strftime_stub
                    Sample.server_refuses Sample.builtin_str_stub
                    Sample.nlp_by_text Fixture.sentiment_stub Sample.zs_sure
                    Fixture.np_std6 Sample.make_article_stub
                    Sample.uuid_stub Sample.utcnow_stub Sample.settings_stub
                    Sample.request_rome
                    (Web.get_news_api_client Sample.settings_stub
                       (Web.Session 1)) [])
             (Web.Exception_
                "Error fetching articles from NewsAPI: NewsAPI request failed: bad key")).
    vm_compute. reflexivity.
  - eapply (proj1 (proj2 (WebFacts.X21_all_or_nothing
                    Sample.parse_stub Sample.strftime_stub
                    Sample.server_ok Sample.builtin_str_stub
                    Sample.nlp_by_text Fixture.sentiment_stub Sample.zs_sure
                    Fixture.np_std6 Sample.make_article_stub
                    Sample.uuid_stub Sample.utcnow_stub Sample.settings_stub
                    Sample.request_rome
                    (Web.get_news_api_client Sample.settings_stub
                       (Web.Session 1)) []))).
    + vm_compute. reflexivity.
    + vm_compute. reflexivity.
Defined.
